(** * read_mail: the IMAP retrieval module, embedded and verified

    Shallow embedding of [run_module] from
    [lib/ansible/modules/net_tools/basics/read_mail.py].

    The module talks to three collaborators that are not part of the file:
    - [imaplib] (the IMAP session [M]),
    - [email] ([message_parser], [decode_header], [Message.get_payload]),
    - [AnsibleModule] ([params], [check_mode], [exit_json], [fail_json]).

    The IMAP server is an oracle ([imap_server]): for every call it says
    whether the call raises or what it returns.  Every call the module makes
    on the session is logged, with its answer, in a trace of [event]s, so
    that the order of the calls and the exit paths can be stated. *)

From Stdlib Require Import String Ascii List ZArith Bool Arith Lia.
Import ListNotations.
Set Warnings "-register-all".
Local Open Scope string_scope.
Local Open Scope list_scope.

(* ===================================================================== *)
(** ** Python values the module manipulates *)
(* ===================================================================== *)

Module Py.

(** What a Python call does: raise an exception or return a value. *)
Inductive response (A : Type) : Type :=
| Raises (exn : string)
| Returns (a : A).
Arguments Raises {A} exn.
Arguments Returns {A} a.

(** A value of the [filter] dict: a YAML string, or null ([None]). *)
Inductive pyval : Type :=
| PyNone
| PyStr (s : string).

(** Truthiness, as tested by [if v:]. *)
Definition truthy (v : pyval) : bool :=
  match v with
  | PyNone => false
  | PyStr s => negb (s =? "")
  end.

(** The token appended by [search_array.append(v)]. *)
Definition str_of (v : pyval) : string :=
  match v with
  | PyNone => "None"
  | PyStr s => s
  end.

(** ASCII whitespace, the separators of [bytes.split()]. *)
Definition is_space (c : ascii) : bool :=
  let n := nat_of_ascii c in
  ((n =? 32) || ((9 <=? n) && (n <=? 13)))%nat.

(** [bytes.split()] with no argument: runs of whitespace separate the
    words, and no empty word is produced.  [cur] is the word being read. *)
Fixpoint split_from (cur : string) (s : string) : list string :=
  match s with
  | EmptyString => if cur =? "" then [] else [cur]
  | String c rest =>
      if is_space c
      then (if cur =? "" then split_from "" rest
            else cur :: split_from "" rest)
      else split_from (cur ++ String c EmptyString) rest
  end.

Definition split (s : string) : list string := split_from "" s.

(** [str.lower()] on ASCII. *)
Definition lower_ascii (c : ascii) : ascii :=
  let n := nat_of_ascii c in
  if ((65 <=? n) && (n <=? 90))%nat then ascii_of_nat (n + 32) else c.

Fixpoint lower (s : string) : string :=
  match s with
  | EmptyString => EmptyString
  | String c rest => String (lower_ascii c) (lower rest)
  end.

End Py.
Export Py.

(* ===================================================================== *)
(** ** The [email] package *)
(* ===================================================================== *)

Module Email.

(** A parsed message: header fields in order, and a payload that is either
    a string (not multipart) or the list of the sub-parts (multipart). *)
Inductive message : Type :=
| Single (headers : list (string * string)) (payload : string)
| Multipart (headers : list (string * string)) (parts : list message).

Definition headers_of (m : message) : list (string * string) :=
  match m with
  | Single h _ => h
  | Multipart h _ => h
  end.

Definition is_multipart (m : message) : bool :=
  match m with
  | Single _ _ => false
  | Multipart _ _ => true
  end.

(** [Message.get(name)]: the first field whose name matches, case
    ignored; [None] when there is none. *)
Fixpoint get (name : string) (hs : list (string * string)) : option string :=
  match hs with
  | [] => None
  | (k, v) :: rest => if lower k =? lower name then Some v else get name rest
  end.

(** [msg[name]] *)
Definition getitem (m : message) (name : string) : option string :=
  get name (headers_of m).

(** The parts of the package that work on the bytes themselves. *)
Record email_lib : Type := {
  (** [six.PY3]: which of the two import branches is taken. *)
  PY3 : bool;
  (** [message_from_bytes] / [message_from_string]. *)
  message_parser : string -> message;
  (** [decode_header] on a string: the (text, charset) chunks. *)
  decode_header_str : string -> list (string * option string);
  quopri_decodestring : string -> string;
  base64_decode : string -> string;
  uu_decode : string -> string
}.

(** [decode_header(header)].  A missing field arrives as [None]: Python 3
    hands it to a regular-expression search, which raises [TypeError];
    Python 2 first takes [str(header)], the four letters of None. *)
Definition decode_header (lib : email_lib) (header : option string)
  : response (list (string * option string)) :=
  match header with
  | Some s => Returns (decode_header_str lib s)
  | None =>
      if PY3 lib
      then Raises "TypeError: expected string or bytes-like object"
      else Returns (decode_header_str lib "None")
  end.

(** [msg.get_payload(i)] with [decode] left false.  The text of the
    [TypeError] is that of Python 3; Python 2 raises it as well. *)
Definition get_payload_at (m : message) (i : nat) : response message :=
  match m with
  | Multipart _ parts =>
      match nth_error parts i with
      | Some p => Returns p
      | None => Raises "IndexError: list index out of range"
      end
  | Single _ _ => Raises "TypeError: Expected list, got <class 'str'>"
  end.

(** [part.get_payload(None, True)]: [None] for a multipart part, else the
    payload decoded from its Content-Transfer-Encoding. *)
Definition get_payload_decoded (lib : email_lib) (m : message)
  : option string :=
  match m with
  | Multipart _ _ => None
  | Single hs payload =>
      let cte := lower (match get "content-transfer-encoding" hs with
                        | Some v => v
                        | None => ""
                        end) in
      if cte =? "quoted-printable" then Some (quopri_decodestring lib payload)
      else if cte =? "base64" then Some (base64_decode lib payload)
      else if (cte =? "x-uuencode") || (cte =? "uuencode")
              || (cte =? "uue") || (cte =? "x-uue")
      then Some (uu_decode lib payload)
      else Some payload
  end.

End Email.
Export Email.

(* ===================================================================== *)
(** ** The IMAP session *)
(* ===================================================================== *)

Module Imap.

(** The answers of [imaplib] for one session.  [srv_connect tls host port]
    is the constructor [IMAP4_SSL] (tls) or [IMAP4]; the data of [search]
    is [search[0]], the data of [fetch] is [content[0]] (an envelope and
    the message, or [None]). *)
Record imap_server : Type := {
  srv_connect : bool -> string -> Z -> response unit;
  srv_login : string -> string -> response unit;
  srv_select : string -> response string;
  srv_search : list string -> response (string * option string);
  srv_fetch : string -> response (string * option (string * string))
}.

(** One call on the session, with its answer.  [EvClose] and [EvLogout]
    are the two calls of [imaplib] that end a session. *)
Inductive event : Type :=
| EvConnect (tls : bool) (host : string) (port : Z) (r : response unit)
| EvLogin (username password : string) (r : response unit)
| EvSelect (mailbox : string) (r : response string)
| EvSearch (tokens : list string) (r : response (string * option string))
| EvFetch (email_id : string)
          (r : response (string * option (string * string)))
| EvClose
| EvLogout.

Definition is_close (e : event) : bool :=
  match e with
  | EvClose | EvLogout => true
  | _ => false
  end.

Definition is_search (e : event) : bool :=
  match e with
  | EvSearch _ _ => true
  | _ => false
  end.

Definition is_fetch (e : event) : bool :=
  match e with
  | EvFetch _ _ => true
  | _ => false
  end.

Definition count (p : event -> bool) (t : list event) : nat :=
  length (filter p t).

End Imap.
Export Imap.

(* ===================================================================== *)
(** ** The module: [run_module] *)
(* ===================================================================== *)

Module ReadMail.

(** The task arguments as the playbook gives them; [None] is an option
    left out.  [a_check_mode] is Ansible's check mode. *)
Record args : Type := {
  a_host : option string;
  a_username : string;
  a_password : string;
  a_tls : option bool;
  a_port : option Z;
  a_mailbox : option string;
  a_filter : option (list (string * pyval));
  a_check_mode : bool
}.

(** [module.params]: the arguments after the defaults of [module_args]. *)
Record params : Type := {
  host : string;
  username : string;
  password : string;
  tls : bool;
  port : Z;
  mailbox : string;
  filter : list (string * pyval)
}.

Definition default {A : Type} (d : A) (o : option A) : A :=
  match o with
  | Some a => a
  | None => d
  end.

(** [filter=dict(type='dict', required=False, default={'ALL': ''})] *)
Definition default_filter : list (string * pyval) := [("ALL", PyStr "")].

Definition module_params (a : args) : params :=
  {| host := default "localhost" (a_host a);
     username := a_username a;
     password := a_password a;
     tls := default true (a_tls a);
     port := default (-1)%Z (a_port a);
     mailbox := default "INBOX" (a_mailbox a);
     filter := default default_filter (a_filter a) |}.

(** One element of [result['mails']]. *)
Record mail : Type := {
  mail_to : string;
  mail_from : string;
  mail_subject : string;
  mail_body : option string
}.

(** The [result] dict. *)
Record result : Type := {
  changed : bool;
  r_username : string;
  r_host : string;
  mails : list mail;
  mails_count : nat
}.

(** [result['mails'].append(m)]: the list inside the dict is updated in
    place, so every later use of [result] sees the new element. *)
Definition append_mail (r : result) (m : mail) : result :=
  {| changed := changed r;
     r_username := r_username r;
     r_host := r_host r;
     mails := mails r ++ [m];
     mails_count := mails_count r |}.

(** [result['mails_count'] = n] *)
Definition set_mails_count (r : result) (n : nat) : result :=
  {| changed := changed r;
     r_username := r_username r;
     r_host := r_host r;
     mails := mails r;
     mails_count := n |}.

(** [result = dict(changed=True, username=..., host=..., mails=[],
    mails_count=0)] *)
Definition initial_result (p : params) : result :=
  {| changed := true;
     r_username := username p;
     r_host := host p;
     mails := [];
     mails_count := 0 |}.

(** Modelled from the spec: how a run of [AnsibleModule] ends
    (module_utils/basic.py is not among the sources).  The caller gets the
    result fields as a success, or the result fields with a failure
    message; [Uncaught] is an exception nothing catches: a traceback, and
    no result at all. *)
Inductive outcome : Type :=
| ExitJson (r : result)
| FailJson (msg : string) (r : result)
| Uncaught (exn : string).

(** Computations of the module: they extend the trace of session calls and
    either go on with a value or end the process. *)
Definition M (A : Type) : Type := list event -> list event * (A + outcome).

Definition ret {A : Type} (a : A) : M A := fun t => (t, inl a).

Definition bind {A B : Type} (m : M A) (k : A -> M B) : M B :=
  fun t =>
    match m t with
    | (t', inl a) => k a t'
    | (t', inr o) => (t', inr o)
    end.

Notation "x <- m ;; k" := (bind m (fun x => k))
  (at level 61, m at next level, right associativity).
Notation "m ;;; k" := (bind m (fun _ => k))
  (at level 61, right associativity).

(** Modelled from the spec: [module.exit_json] with the result fields, absent
    from the sources: the result goes to the caller as a success and the
    process ends. *)
Definition exit_json {A : Type} (r : result) : M A :=
  fun t => (t, inr (ExitJson r)).

(** Modelled from the spec: [AnsibleModule.fail_json(msg=..., **result)],
    absent from the sources: the result goes to the caller together with
    the failure message and the process ends. *)
Definition fail_json {A : Type} (msg : string) (r : result) : M A :=
  fun t => (t, inr (FailJson msg r)).

Definition raise {A : Type} (exn : string) : M A :=
  fun t => (t, inr (Uncaught exn)).

(** A call on the session: logged with its answer. *)
Definition call {A : Type} (ev : response A -> event) (r : response A)
  : M (response A) :=
  fun t => (t ++ [ev r], inl r).

(** A call outside any [try]: an exception goes up uncaught. *)
Definition unguarded {A : Type} (r : response A) : M A :=
  match r with
  | Raises exn => raise exn
  | Returns a => ret a
  end.

(** [try: ... except Exception as e: module.fail_json(msg=str(e), **result)] *)
Definition guarded {A : Type} (res : result) (r : response A) : M A :=
  match r with
  | Raises exn => fail_json exn res
  | Returns a => ret a
  end.

(** [status != 'OK'] *)
Definition not_ok (status : string) : bool := negb (status =? "OK").

(** The loop that makes the filter:
[[
    search_array = []
    for k, v in module.params['filter'].items():
        search_array.append(k)
        if v:
            search_array.append(v)
]] *)
Definition filter_step (search_array : list string) (kv : string * pyval)
  : list string :=
  let '(k, v) := kv in
  let search_array := search_array ++ [k] in
  if truthy v then search_array ++ [str_of v] else search_array.

Definition make_search_array (f : list (string * pyval)) : list string :=
  fold_left filter_step f [].

(** [x[0][0]] on the chunks returned by [decode_header]. *)
Definition first_chunk (chunks : list (string * option string))
  : response string :=
  match chunks with
  | [] => Raises "IndexError: list index out of range"
  | (text, _) :: _ => Returns text
  end.

(** [decode_header(msg[name])[0][0]] *)
Definition header_field (lib : email_lib) (msg : message) (name : string)
  : response string :=
  match decode_header lib (getitem msg name) with
  | Raises exn => Raises exn
  | Returns chunks => first_chunk chunks
  end.

(** [msg.get_payload(0).get_payload(None, True)] *)
Definition body_field (lib : email_lib) (msg : message)
  : response (option string) :=
  match get_payload_at msg 0 with
  | Raises exn => Raises exn
  | Returns part => Returns (get_payload_decoded lib part)
  end.

(** The dict display appended to [result['mails']]; its values are
    evaluated in the order written: to, from, subject, body. *)
Definition decode_mail (lib : email_lib) (msg : message) : response mail :=
  match header_field lib msg "to" with
  | Raises exn => Raises exn
  | Returns t =>
  match header_field lib msg "from" with
  | Raises exn => Raises exn
  | Returns f =>
  match header_field lib msg "subject" with
  | Raises exn => Raises exn
  | Returns s =>
  match body_field lib msg with
  | Raises exn => Raises exn
  | Returns b =>
      Returns {| mail_to := t; mail_from := f;
                 mail_subject := s; mail_body := b |}
  end end end end.

(** [message_parser(content[0][1])] *)
Definition parse_content (lib : email_lib)
  (content0 : option (string * string)) : response message :=
  match content0 with
  | None => Raises "TypeError: 'NoneType' object is not subscriptable"
  | Some (_, raw) => Returns (message_parser lib raw)
  end.

Section Run.

Variable lib : email_lib.
Variable srv : imap_server.

(** The loop that builds the result mails, one pass per id. *)
Fixpoint build_mails (ids : list string) (res : result) : M result :=
  match ids with
  | [] => ret res
  | email_id :: rest =>
      sc <- (r <- call (EvFetch email_id) (srv_fetch srv email_id) ;;
             unguarded r) ;;
      (if not_ok (fst sc) then fail_json "Error parsing" res else ret tt) ;;;
      msg <- unguarded (parse_content lib (snd sc)) ;;
      m <- unguarded (decode_mail lib msg) ;;
      build_mails rest (append_mail res m)
  end.

(** [search[0].split()] *)
Definition search_ids (search0 : option string) : response (list string) :=
  match search0 with
  | None => Raises "AttributeError: 'NoneType' object has no attribute 'split'"
  | Some s => Returns (split s)
  end.

Definition run_module_M (a : args) : M Empty_set :=
  let p := module_params a in
  let res := initial_result p in
  (if a_check_mode a then exit_json res else ret tt) ;;;
  (* create connection *)
  let port := if tls p
              then (if (port p <? 0)%Z then 993%Z else port p)
              else (if (port p <? 0)%Z then 143%Z else port p) in
  (r <- call (EvConnect (tls p) (host p) port)
             (srv_connect srv (tls p) (host p) port) ;;
   guarded res r) ;;;
  (* login *)
  (r <- call (EvLogin (username p) (password p))
             (srv_login srv (username p) (password p)) ;;
   guarded res r) ;;;
  (* selects mailbox *)
  (r <- call (EvSelect (mailbox p)) (srv_select srv (mailbox p)) ;;
   unguarded r) ;;;
  (* makes the filter *)
  let search_array := make_search_array (filter p) in
  ss <- (r <- call (EvSearch search_array) (srv_search srv search_array) ;;
         unguarded r) ;;
  (if not_ok (fst ss) then fail_json "Error filtering" res else ret tt) ;;;
  (* build result mails *)
  ids <- unguarded (search_ids (snd ss)) ;;
  res <- build_mails ids res ;;
  let res := set_mails_count res (length (mails res)) in
  exit_json res.

(** The run of the process: the session calls made, and how it ended.
    The last statement is [exit_json], so there is no falling off the end. *)
Definition run_module (a : args) : list event * outcome :=
  match run_module_M a [] with
  | (t, inl nothing) => match nothing with end
  | (t, inr o) => (t, o)
  end.

End Run.

End ReadMail.
Export ReadMail.

(* ===================================================================== *)
(** ** Vocabulary of the properties *)
(* ===================================================================== *)

Module Props.

(** The CriteriaCompiler as the specification words it: for each pair, in
    order, the key, and right after it the value when present and not
    empty. *)
Definition present_value (v : pyval) : option string :=
  match v with
  | PyNone => None
  | PyStr s => if s =? "" then None else Some s
  end.

Definition term (kv : string * pyval) : list string :=
  match present_value (snd kv) with
  | Some s => [fst kv; s]
  | None => [fst kv]
  end.

Definition compile_spec (f : list (string * pyval)) : list string :=
  flat_map term f.

(** What one pass of the loop does with an id. *)
Inductive pass_result : Type :=
| Appended (m : mail)
| Failed (msg : string)
| Crashed (exn : string).

Definition pass (lib : email_lib) (srv : imap_server) (email_id : string)
  : pass_result :=
  match srv_fetch srv email_id with
  | Raises exn => Crashed exn
  | Returns (status, content0) =>
      if not_ok status then Failed "Error parsing"
      else match parse_content lib content0 with
           | Raises exn => Crashed exn
           | Returns msg =>
               match decode_mail lib msg with
               | Raises exn => Crashed exn
               | Returns m => Appended m
               end
           end
  end.

(** The outcome of the pass that stops the loop. *)
Definition stop_outcome (pr : pass_result) (res : result) : outcome :=
  match pr with
  | Failed msg => FailJson msg res
  | Crashed exn => Uncaught exn
  | Appended _ => ExitJson res
  end.

(** Fetch and decode both succeed on the id, and give [m]. *)
Definition delivers (lib : email_lib) (srv : imap_server)
  (email_id : string) (m : mail) : Prop :=
  pass lib srv email_id = Appended m.

(** Fetch or decode fails on the id. *)
Definition breaks (lib : email_lib) (srv : imap_server)
  (email_id : string) : Prop :=
  forall m, pass lib srv email_id <> Appended m.

(** The port the connection is made to. *)
Definition effective_port (p : params) : Z :=
  if tls p
  then (if (port p <? 0)%Z then 993%Z else port p)
  else (if (port p <? 0)%Z then 143%Z else port p).

(** The session gets as far as a search that the server answers: no check
    mode, connection and login made, select returned (whatever status),
    and the search returned [status] and [search0]. *)
Definition searched (srv : imap_server) (a : args)
  (status : string) (search0 : option string) : Prop :=
  let p := module_params a in
  a_check_mode a = false /\
  srv_connect srv (tls p) (host p) (effective_port p) = Returns tt /\
  srv_login srv (username p) (password p) = Returns tt /\
  (exists st, srv_select srv (mailbox p) = Returns st) /\
  srv_search srv (make_search_array (filter p)) = Returns (status, search0).

(** The calls made up to and including the search. *)
Definition opening (srv : imap_server) (a : args) : list event :=
  let p := module_params a in
  [ EvConnect (tls p) (host p) (effective_port p)
      (srv_connect srv (tls p) (host p) (effective_port p));
    EvLogin (username p) (password p)
      (srv_login srv (username p) (password p));
    EvSelect (mailbox p) (srv_select srv (mailbox p));
    EvSearch (make_search_array (filter p))
      (srv_search srv (make_search_array (filter p))) ].

Definition fetch_event (srv : imap_server) (email_id : string) : event :=
  EvFetch email_id (srv_fetch srv email_id).

(** The ids fetched, in the order of the calls. *)
Fixpoint fetched (t : list event) : list string :=
  match t with
  | [] => []
  | EvFetch email_id _ :: rest => email_id :: fetched rest
  | _ :: rest => fetched rest
  end.

(** The four calls whose answer makes the module call [fail_json], with
    the message it gives: a connection or a login that raises, a search or
    a fetch whose status is not OK. *)
Definition failure_of_call (e : event) : option string :=
  match e with
  | EvConnect _ _ _ (Raises exn) => Some exn
  | EvLogin _ _ (Raises exn) => Some exn
  | EvSearch _ (Returns (status, _)) =>
      if not_ok status then Some "Error filtering" else None
  | EvFetch _ (Returns (status, _)) =>
      if not_ok status then Some "Error parsing" else None
  | _ => None
  end.

(** The same, for the last call of a trace. *)
Definition last_failure (t : list event) : option string :=
  match rev t with
  | [] => None
  | e :: _ => failure_of_call e
  end.

End Props.
Export Props.

(* ===================================================================== *)
(** ** Test fixtures: a library without encodings, and a few servers *)
(* ===================================================================== *)

Module Fixtures.

Definition part (body : string) : message :=
  Single [("Content-Type", "text/plain")] body.

Definition multipart_to (t f s body : string) : message :=
  Multipart [("To", t); ("From", f); ("Subject", s)]
            [part body; part "<p>alternative</p>"].

Definition msg1 : message := multipart_to "ann@example.com" "bob@example.com" "Invoice 1" "first".
Definition msg2 : message := multipart_to "ann@example.com" "cy@example.com" "Invoice 2" "second".
Definition msg4 : message := multipart_to "ann@example.com" "di@example.com" "Invoice 4" "fourth".

(** A message that is not multipart, with its three headers. *)
Definition plain_msg : message :=
  Single [("To", "ann@example.com"); ("From", "bob@example.com");
          ("Subject", "hello")] "plain body".

(** A multipart message that has no Subject field. *)
Definition no_subject_msg : message :=
  Multipart [("To", "ann@example.com"); ("From", "bob@example.com")]
            [part "body"].

(** The parser on the raw messages of the fixtures. *)
Definition parser (raw : string) : message :=
  if raw =? "raw1" then msg1
  else if raw =? "raw2" then msg2
  else if raw =? "raw4" then msg4
  else if raw =? "plain" then plain_msg
  else if raw =? "nosubject" then no_subject_msg
  else Single [] raw.

(** Headers without encoded words decode to themselves, with no charset;
    the fixtures use no transfer encoding. *)
Definition lib_of (py3 : bool) : email_lib :=
  {| PY3 := py3;
     message_parser := parser;
     decode_header_str := fun s => [(s, None)];
     quopri_decodestring := fun s => s;
     base64_decode := fun s => s;
     uu_decode := fun s => s |}.

Definition lib3 : email_lib := lib_of true.
Definition lib2 : email_lib := lib_of false.

Definition mail1 : mail :=
  {| mail_to := "ann@example.com"; mail_from := "bob@example.com";
     mail_subject := "Invoice 1"; mail_body := Some "first" |}.
Definition mail2 : mail :=
  {| mail_to := "ann@example.com"; mail_from := "cy@example.com";
     mail_subject := "Invoice 2"; mail_body := Some "second" |}.

Definition ok_fetch (raw : string)
  : response (string * option (string * string)) :=
  Returns ("OK", Some ("(RFC822 {42}", raw)).

(** A server that accepts everything and whose mailbox answers the search
    with [ids]; [fetch_of] gives the answer to each fetch. *)
Definition server (ids : option string)
  (fetch_of : string -> response (string * option (string * string)))
  : imap_server :=
  {| srv_connect := fun _ _ _ => Returns tt;
     srv_login := fun _ _ => Returns tt;
     srv_select := fun _ => Returns "OK";
     srv_search := fun _ => Returns ("OK", ids);
     srv_fetch := fetch_of |}.

(** Five matches; the fetch of the third is refused. *)
Definition srv_third_fails : imap_server :=
  server (Some "1 2 3 4 5")
    (fun i => if i =? "1" then ok_fetch "raw1"
              else if i =? "2" then ok_fetch "raw2"
              else if i =? "3" then Returns ("NO", None)
              else ok_fetch "raw4").

(** Two matches, both fetched. *)
Definition srv_two : imap_server :=
  server (Some "1 2")
    (fun i => if i =? "1" then ok_fetch "raw1" else ok_fetch "raw2").

(** No match: the id list of the answer is empty. *)
Definition srv_none : imap_server :=
  server (Some "") (fun _ => Returns ("NO", None)).

(** The search is refused. *)
Definition srv_search_no : imap_server :=
  {| srv_connect := fun _ _ _ => Returns tt;
     srv_login := fun _ _ => Returns tt;
     srv_select := fun _ => Returns "OK";
     srv_search := fun _ => Returns ("NO", Some "");
     srv_fetch := fun _ => Returns ("NO", None) |}.

(** One match, the message that is not multipart. *)
Definition srv_plain : imap_server :=
  server (Some "1") (fun _ => ok_fetch "plain").

(** One match, the message without Subject. *)
Definition srv_no_subject : imap_server :=
  server (Some "1") (fun _ => ok_fetch "nosubject").

(** The mailbox does not exist: the server answers NO to SELECT, the
    session stays unselected, and [imaplib] then refuses SEARCH. *)
Definition srv_no_mailbox : imap_server :=
  {| srv_connect := fun _ _ _ => Returns tt;
     srv_login := fun _ _ => Returns tt;
     srv_select := fun _ => Returns "NO";
     srv_search := fun _ =>
       Raises "command SEARCH illegal in state AUTH, only allowed in states SELECTED";
     srv_fetch := fun _ => Returns ("NO", None) |}.

(** The connection is refused. *)
Definition srv_down : imap_server :=
  {| srv_connect := fun _ _ _ => Raises "[Errno 111] Connection refused";
     srv_login := fun _ _ => Returns tt;
     srv_select := fun _ => Returns "OK";
     srv_search := fun _ => Returns ("OK", Some "");
     srv_fetch := fun _ => Returns ("NO", None) |}.

(** The login is rejected. *)
Definition srv_bad_login : imap_server :=
  {| srv_connect := fun _ _ _ => Returns tt;
     srv_login := fun _ _ => Raises "[AUTHENTICATIONFAILED] Invalid credentials";
     srv_select := fun _ => Returns "OK";
     srv_search := fun _ => Returns ("OK", Some "");
     srv_fetch := fun _ => Returns ("NO", None) |}.

(** A task that gives only the required arguments. *)
Definition task (f : option (list (string * pyval))) (mbox : option string)
  : args :=
  {| a_host := Some "mail.example.com";
     a_username := "ann";
     a_password := "secret";
     a_tls := None;
     a_port := None;
     a_mailbox := mbox;
     a_filter := f;
     a_check_mode := false |}.

Definition task0 : args := task None None.

End Fixtures.

(* ===================================================================== *)
(** ** More vocabulary: the shape of a run *)
(* ===================================================================== *)

Module Shape.

(** The ids that the answer of the search holds: the words of [search[0]]
    when the search returned one, none otherwise. *)
Definition answered_ids (srv : imap_server) (a : args) : list string :=
  match srv_search srv (make_search_array (filter (module_params a))) with
  | Returns (_, Some s) => split s
  | _ => []
  end.

(** The result that an outcome hands to the caller, if any. *)
Definition result_of (o : outcome) : option result :=
  match o with
  | ExitJson r => Some r
  | FailJson _ r => Some r
  | Uncaught _ => None
  end.

(** No whitespace in the string. *)
Fixpoint no_space (s : string) : bool :=
  match s with
  | EmptyString => true
  | String c rest => negb (is_space c) && no_space rest
  end.

(** A word: not empty, and no whitespace in it. *)
Definition word (s : string) : bool := negb (s =? "") && no_space s.

(** The last call of a trace raised [exn], in a call that no [try]
    surrounds: select, search or fetch. *)
Definition unguarded_raise (t : list event) : option string :=
  match rev t with
  | EvSelect _ (Raises exn) :: _ => Some exn
  | EvSearch _ (Raises exn) :: _ => Some exn
  | EvFetch _ (Raises exn) :: _ => Some exn
  | _ => None
  end.

End Shape.
Export Shape.

(* ===================================================================== *)
(** ** The notification variant of the module *)
(* ===================================================================== *)

(** [run_module] of [lib/ansible/modules/notification/read_mail.py]: the
    same session, with a fixed mailbox and a fixed search, a result that is
    never filled in, and the To and From fields printed. *)
Module Notification.

Record args : Type := {
  a_host : string;
  a_username : string;
  a_password : string;
  a_ssl : option bool;
  a_port : option Z;
  a_check_mode : bool
}.

(** [module.params]: [ssl] defaults to true, [port] to [None]. *)
Record params : Type := {
  host : string;
  username : string;
  password : string;
  ssl : bool;
  port : option Z
}.

Definition module_params (a : args) : params :=
  {| host := a_host a;
     username := a_username a;
     password := a_password a;
     ssl := default true (a_ssl a);
     port := a_port a |}.

(** The [result] dict: six keys. *)
Record result : Type := {
  changed : bool;
  r_username : string;
  r_host : string;
  r_password : string;
  r_ssl : string;
  r_list : string
}.

(** [result = dict(changed=False, username='', host='', password='',
    ssl='', list='')] *)
Definition seed_result : result :=
  {| changed := false;
     r_username := "";
     r_host := "";
     r_password := "";
     r_ssl := "";
     r_list := "" |}.

(** Modelled from the spec: how a run of [AnsibleModule] ends
    (module_utils/basic.py is not among the sources), as for the other
    module. *)
Inductive outcome : Type :=
| ExitJson (r : result)
| FailJson (msg : string) (r : result)
| Uncaught (exn : string).

(** What the run does, in order: a call on the session, the call
    [M.list()], or a line printed on the standard output. *)
Inductive event : Type :=
| Session (e : Imap.event)
| EvList (r : response string)
| Print (line : string).

(** The session, with the answer to [M.list()]. *)
Record server : Type := {
  imap : imap_server;
  srv_list : response string
}.

Definition N (A : Type) : Type := list event -> list event * (A + outcome).

Definition ret {A : Type} (a : A) : N A := fun t => (t, inl a).

Definition bind {A B : Type} (m : N A) (k : A -> N B) : N B :=
  fun t =>
    match m t with
    | (t', inl a) => k a t'
    | (t', inr o) => (t', inr o)
    end.

Declare Scope notif_scope.
Notation "x <- m ;; k" := (bind m (fun x => k)) : notif_scope.
Notation "m ;;; k" := (bind m (fun _ => k)) : notif_scope.
Local Open Scope notif_scope.

(** Modelled from the spec: [module.exit_json] with the result fields,
    absent from the sources. *)
Definition exit_json {A : Type} (r : result) : N A :=
  fun t => (t, inr (ExitJson r)).

(** Modelled from the spec: [module.fail_json] with a message and the
    result fields, absent from the sources. *)
Definition fail_json {A : Type} (msg : string) (r : result) : N A :=
  fun t => (t, inr (FailJson msg r)).

Definition raise {A : Type} (exn : string) : N A :=
  fun t => (t, inr (Uncaught exn)).

Definition call {A : Type} (ev : response A -> event) (r : response A)
  : N (response A) :=
  fun t => (t ++ [ev r], inl r).

Definition unguarded {A : Type} (r : response A) : N A :=
  match r with
  | Raises exn => raise exn
  | Returns a => ret a
  end.

Definition guarded {A : Type} (res : result) (r : response A) : N A :=
  match r with
  | Raises exn => fail_json exn res
  | Returns a => ret a
  end.

(** [print(x)] for a header value: the text, or None for a missing
    field. *)
Definition print (x : option string) : N unit :=
  fun t => (t ++ [Print (match x with Some s => s | None => "None" end)],
            inl tt).

(** The second search key, Alerta between double quotes. *)
Definition quoted_alerta : string :=
  String "034"%char ("Alerta" ++ String "034"%char EmptyString).

(** [email.message_from_bytes(body[0][1])].  The function is looked up
    first; the [email] package of Python 2 does not have it. *)
Definition parse_body (lib : email_lib) (body0 : option (string * string))
  : response message :=
  if PY3 lib
  then match body0 with
       | None => Raises "TypeError: 'NoneType' object is not subscriptable"
       | Some (_, raw) => Returns (message_parser lib raw)
       end
  else Raises "AttributeError: 'module' object has no attribute 'message_from_bytes'".

Section Run.

Variable lib : email_lib.
Variable srv : server.

(** The loop over the ids: fetch, parse, print To and From. *)
Fixpoint print_mails (ids : list string) (res : result) : N unit :=
  match ids with
  | [] => ret tt
  | email_id :: rest =>
      eb <- (r <- call (fun r => Session (EvFetch email_id r))
                       (srv_fetch (imap srv) email_id) ;;
             unguarded r) ;;
      (if not_ok (fst eb) then fail_json "Error" res else ret tt) ;;;
      msg <- unguarded (parse_body lib (snd eb)) ;;
      print (getitem msg "to") ;;;
      print (getitem msg "from") ;;;
      print_mails rest res
  end.

Definition run_module_N (a : args) : N Empty_set :=
  let p := module_params a in
  let res := seed_result in
  (if a_check_mode a then exit_json res else ret tt) ;;;
  (* create connection *)
  let port := if ssl p
              then (match port p with None => 993%Z | Some n => n end)
              else (match port p with None => 143%Z | Some n => n end) in
  (r <- call (fun r => Session (EvConnect (ssl p) (host p) port r))
             (srv_connect (imap srv) (ssl p) (host p) port) ;;
   guarded res r) ;;;
  (* login *)
  (r <- call (fun r => Session (EvLogin (username p) (password p) r))
             (srv_login (imap srv) (username p) (password p)) ;;
   guarded res r) ;;;
  (r <- call EvList (srv_list srv) ;; unguarded r) ;;;
  (r <- call (fun r => Session (EvSelect "inbox" r))
             (srv_select (imap srv) "inbox") ;;
   unguarded r) ;;;
  es <- (r <- call (fun r => Session (EvSearch ["SUBJECT"; quoted_alerta] r))
                   (srv_search (imap srv) ["SUBJECT"; quoted_alerta]) ;;
         unguarded r) ;;
  (if not_ok (fst es) then fail_json "Error" res else ret tt) ;;;
  ids <- unguarded (search_ids (snd es)) ;;
  print_mails ids res ;;;
  exit_json res.

Definition run_module (a : args) : list event * outcome :=
  match run_module_N a [] with
  | (t, inl nothing) => match nothing with end
  | (t, inr o) => (t, o)
  end.

End Run.

(** The lines printed, in order. *)
Fixpoint printed (t : list event) : list string :=
  match t with
  | [] => []
  | Print line :: rest => line :: printed rest
  | _ :: rest => printed rest
  end.

(** The calls made on the session, in order. *)
Fixpoint session_calls (t : list event) : list Imap.event :=
  match t with
  | [] => []
  | Session e :: rest => e :: session_calls rest
  | _ :: rest => session_calls rest
  end.

(** The port the connection is made to. *)
Definition effective_port (p : params) : Z :=
  if ssl p
  then (match port p with None => 993%Z | Some n => n end)
  else (match port p with None => 143%Z | Some n => n end).

(** The two lines printed for a message. *)
Definition lines_of (msg : message) : list string :=
  [ match getitem msg "to" with Some s => s | None => "None" end;
    match getitem msg "from" with Some s => s | None => "None" end ].

(** The fetch of the id returns OK with a message, which parses to [msg]. *)
Definition shows (lib : email_lib) (srv : server) (email_id : string)
  (msg : message) : Prop :=
  PY3 lib = true /\
  exists envelope raw,
    srv_fetch (imap srv) email_id = Returns ("OK", Some (envelope, raw)) /\
    message_parser lib raw = msg.

(** The session gets to a search that returns OK and [s]. *)
Definition searched_ok (srv : server) (a : args) (s : string) : Prop :=
  let p := module_params a in
  a_check_mode a = false /\
  srv_connect (imap srv) (ssl p) (host p) (effective_port p) = Returns tt /\
  srv_login (imap srv) (username p) (password p) = Returns tt /\
  (exists st, srv_list srv = Returns st) /\
  (exists st, srv_select (imap srv) "inbox" = Returns st) /\
  srv_search (imap srv) ["SUBJECT"; quoted_alerta] = Returns ("OK", Some s).

(** The calls made before the loop, when none of them raises. *)
Definition opening (srv : server) (a : args) : list event :=
  let p := module_params a in
  [ Session (EvConnect (ssl p) (host p) (effective_port p)
               (srv_connect (imap srv) (ssl p) (host p) (effective_port p)));
    Session (EvLogin (username p) (password p)
               (srv_login (imap srv) (username p) (password p)));
    EvList (srv_list srv);
    Session (EvSelect "inbox" (srv_select (imap srv) "inbox"));
    Session (EvSearch ["SUBJECT"; quoted_alerta]
               (srv_search (imap srv) ["SUBJECT"; quoted_alerta])) ].

(** The result that an outcome hands to the caller, if any. *)
Definition result_of (o : outcome) : option result :=
  match o with
  | ExitJson r => Some r
  | FailJson _ r => Some r
  | Uncaught _ => None
  end.

End Notification.

(* ===================================================================== *)
(** ** More fixtures *)
(* ===================================================================== *)

Module Fixtures2.

(** The task of the fixtures, in check mode. *)
Definition task_check : ReadMail.args :=
  {| ReadMail.a_host := Some "mail.example.com";
     ReadMail.a_username := "ann";
     ReadMail.a_password := "secret";
     ReadMail.a_tls := None;
     ReadMail.a_port := None;
     ReadMail.a_mailbox := None;
     ReadMail.a_filter := None;
     ReadMail.a_check_mode := true |}.

(** No TLS, and a port of its own. *)
Definition task_port42 : ReadMail.args :=
  {| ReadMail.a_host := Some "imap.myhost.com";
     ReadMail.a_username := "myuser";
     ReadMail.a_password := "mypass";
     ReadMail.a_tls := Some false;
     ReadMail.a_port := Some 42%Z;
     ReadMail.a_mailbox := None;
     ReadMail.a_filter := None;
     ReadMail.a_check_mode := false |}.

(** The fetch of the only match raises. *)
Definition srv_fetch_raises : imap_server :=
  Fixtures.server (Some "7") (fun _ => Raises "socket error: EOF").

(** A notification task, with a negative port. *)
Definition ntask : Notification.args :=
  {| Notification.a_host := "mail.example.com";
     Notification.a_username := "ann";
     Notification.a_password := "secret";
     Notification.a_ssl := None;
     Notification.a_port := Some (-1)%Z;
     Notification.a_check_mode := false |}.

(** The server of two matches, for the notification module; the second
    message has no header field at all. *)
Definition nsrv_two : Notification.server :=
  {| Notification.imap :=
       Fixtures.server (Some "1 2")
         (fun i => if i =? "1" then Fixtures.ok_fetch "raw1"
                   else Fixtures.ok_fetch "nofrom");
     Notification.srv_list := Returns "OK" |}.

(** The third fetch is refused, for the notification module. *)
Definition nsrv_third_fails : Notification.server :=
  {| Notification.imap := Fixtures.srv_third_fails;
     Notification.srv_list := Returns "OK" |}.

End Fixtures2.

(* ===================================================================== *)
(** ** Facts about the pieces *)
(* ===================================================================== *)

Lemma not_ok_false (status : string) : not_ok status = false <-> status = "OK".
Proof.
  unfold not_ok. rewrite negb_false_iff. apply String.eqb_eq.
Qed.

Lemma not_ok_true (status : string) : not_ok status = true <-> status <> "OK".
Proof.
  unfold not_ok. rewrite negb_true_iff. apply String.eqb_neq.
Qed.

Lemma filter_step_term (acc : list string) (kv : string * pyval) :
  filter_step acc kv = acc ++ term kv.
Proof.
  destruct kv as [k [|s]]; unfold filter_step, term; simpl.
  - reflexivity.
  - destruct (s =? ""); simpl; [reflexivity | now rewrite <- app_assoc].
Qed.

Lemma fold_filter_step (f : list (string * pyval)) :
  forall acc, fold_left filter_step f acc = acc ++ compile_spec f.
Proof.
  induction f as [|kv f IH]; intros acc; simpl.
  - now rewrite app_nil_r.
  - rewrite IH, filter_step_term. now rewrite <- app_assoc.
Qed.

Lemma make_search_array_spec (f : list (string * pyval)) :
  make_search_array f = compile_spec f.
Proof. unfold make_search_array. now rewrite fold_filter_step. Qed.


Lemma last_failure_snoc (t : list event) (e : event) :
  last_failure (t ++ [e]) = failure_of_call e.
Proof. unfold last_failure. now rewrite rev_unit. Qed.

Lemma count_snoc (p : event -> bool) (t : list event) (e : event) :
  count p (t ++ [e]) = count p t + (if p e then 1 else 0).
Proof.
  unfold count. rewrite filter_app, length_app. simpl.
  destruct (p e); reflexivity.
Qed.

Lemma fetched_app (t u : list event) : fetched (t ++ u) = fetched t ++ fetched u.
Proof.
  induction t as [|e t IH]; simpl; [reflexivity|].
  destruct e; simpl; now rewrite IH.
Qed.

Lemma fetched_fetch_events (srv : imap_server) (ids : list string) :
  fetched (map (fetch_event srv) ids) = ids.
Proof. induction ids as [|i ids IH]; simpl; [reflexivity | now rewrite IH]. Qed.

Lemma mails_fold_append (ms : list mail) :
  forall res,
    mails (fold_left append_mail ms res) = mails res ++ ms /\
    mails_count (fold_left append_mail ms res) = mails_count res /\
    r_host (fold_left append_mail ms res) = r_host res /\
    r_username (fold_left append_mail ms res) = r_username res /\
    changed (fold_left append_mail ms res) = changed res.
Proof.
  induction ms as [|m ms IH]; intros res; simpl.
  - now rewrite app_nil_r.
  - destruct (IH (append_mail res m)) as (H1 & H2 & H3 & H4 & H5).
    rewrite H1, H2, H3, H4, H5. simpl. now rewrite <- app_assoc.
Qed.

Section Loop.

Variable lib : email_lib.
Variable srv : imap_server.

(** One pass of the loop, read through [pass]. *)
Lemma build_mails_cons (email_id : string) (rest : list string)
  (res : result) (t : list event) :
  build_mails lib srv (email_id :: rest) res t =
  match pass lib srv email_id with
  | Appended m =>
      build_mails lib srv rest (append_mail res m)
                  (t ++ [fetch_event srv email_id])
  | Failed msg => (t ++ [fetch_event srv email_id], inr (FailJson msg res))
  | Crashed exn => (t ++ [fetch_event srv email_id], inr (Uncaught exn))
  end.
Proof.
  unfold pass, fetch_event. simpl. unfold bind, call.
  destruct (srv_fetch srv email_id) as [exn|[status content0]]; simpl;
    [reflexivity|].
  destruct (not_ok status); simpl; [reflexivity|].
  destruct (parse_content lib content0) as [exn|msg]; simpl; [reflexivity|].
  destruct (decode_mail lib msg) as [exn|m]; reflexivity.
Qed.

(** While every id delivers, the loop appends the mails in the order of
    the ids and fetches each id once. *)
Lemma build_mails_delivers (ids : list string) (ms : list mail) :
  Forall2 (delivers lib srv) ids ms ->
  forall res t,
    build_mails lib srv ids res t =
    (t ++ map (fetch_event srv) ids, inl (fold_left append_mail ms res)).
Proof.
  induction 1 as [|i m ids ms Hd _ IH]; intros res t.
  - simpl. unfold ret. now rewrite app_nil_r.
  - rewrite build_mails_cons. unfold delivers in Hd. rewrite Hd.
    rewrite IH. simpl. now rewrite <- app_assoc.
Qed.

Lemma build_mails_breaks (pre : list string) (ms : list mail)
  (bad : string) (post : list string) :
  Forall2 (delivers lib srv) pre ms ->
  breaks lib srv bad ->
  forall res t,
    build_mails lib srv (pre ++ bad :: post) res t =
    (t ++ map (fetch_event srv) (pre ++ [bad]),
     inr (stop_outcome (pass lib srv bad) (fold_left append_mail ms res))).
Proof.
  intros Hpre Hbad.
  induction Hpre as [|i m pre ms Hd _ IH]; intros res t.
  - simpl app. rewrite build_mails_cons. simpl.
    destruct (pass lib srv bad) as [m|msg|exn] eqn:E; simpl.
    + exfalso. exact (Hbad m E).
    + reflexivity.
    + reflexivity.
  - simpl app. rewrite build_mails_cons. unfold delivers in Hd. rewrite Hd.
    rewrite IH. simpl. now rewrite <- app_assoc.
Qed.

(** What the loop never does: it makes no call other than fetch, it never
    exits with success itself, and it fails with a result only after a
    fetch whose status is not OK. *)
Lemma build_mails_inv (ids : list string) :
  forall res t t' x,
    build_mails lib srv ids res t = (t', x) ->
    count is_close t' = count is_close t /\
    match x with
    | inl res' =>
        (last_failure t = None -> last_failure t' = None) /\
        mails_count res' = mails_count res /\
        r_host res' = r_host res /\
        r_username res' = r_username res /\
        changed res' = changed res
    | inr (FailJson msg r) =>
        last_failure t' = Some msg /\
        mails_count r = mails_count res /\
        r_host r = r_host res /\
        r_username r = r_username res /\
        changed r = changed res
    | inr (Uncaught _) => last_failure t' = None
    | inr (ExitJson _) => False
    end.
Proof.
  induction ids as [|i ids IH]; intros res t t' x H.
  - simpl in H. unfold ret in H. inversion H; subst. tauto.
  - rewrite build_mails_cons in H.
    assert (Hf : failure_of_call (fetch_event srv i) =
                 match pass lib srv i with
                 | Failed msg => Some msg
                 | _ => None
                 end).
    { unfold fetch_event, pass. simpl.
      destruct (srv_fetch srv i) as [exn|[status content0]]; [reflexivity|].
      destruct (not_ok status); [reflexivity|].
      destruct (parse_content lib content0) as [exn|msg]; [reflexivity|].
      destruct (decode_mail lib msg); reflexivity. }
    destruct (pass lib srv i) as [m|msg|exn].
    + apply IH in H. destruct H as [Hc Hx]. split.
      * rewrite Hc, count_snoc. simpl. lia.
      * destruct x as [res'|[r|msg r|exn]]; try exact Hx.
        destruct Hx as (H1 & H2 & H3 & H4 & H5). simpl in *.
        repeat split; try assumption.
        intros _. apply H1. now rewrite last_failure_snoc.
    + inversion H; subst. split.
      * rewrite count_snoc. simpl. lia.
      * rewrite last_failure_snoc. tauto.
    + inversion H; subst. split.
      * rewrite count_snoc. simpl. lia.
      * now rewrite last_failure_snoc.
Qed.

End Loop.

Section Runs.

Variable lib : email_lib.
Variable srv : imap_server.

(** Check mode: the initial result, and no call at all. *)
Lemma run_module_check_mode (a : args) :
  a_check_mode a = true ->
  run_module lib srv a = ([], ExitJson (initial_result (module_params a))).
Proof.
  intros H. unfold run_module, run_module_M, bind, exit_json. now rewrite H.
Qed.

(** Once the search is answered, the run is decided by the status, the id
    list and the loop. *)
Lemma run_module_searched (a : args) (status : string)
  (search0 : option string) :
  searched srv a status search0 ->
  run_module lib srv a =
  if not_ok status
  then (opening srv a,
        FailJson "Error filtering" (initial_result (module_params a)))
  else match search0 with
       | None =>
           (opening srv a,
            Uncaught "AttributeError: 'NoneType' object has no attribute 'split'")
       | Some s =>
           match build_mails lib srv (split s)
                   (initial_result (module_params a)) (opening srv a) with
           | (t, inl res) =>
               (t, ExitJson (set_mails_count res (length (mails res))))
           | (t, inr o) => (t, o)
           end
       end.
Proof.
  intros (Hc & Hconn & Hlog & [st Hsel] & Hs).
  unfold run_module, run_module_M, opening, bind, call, exit_json.
  fold (effective_port (module_params a)).
  rewrite Hc, Hconn, Hlog, Hsel, Hs. simpl.
  destruct (not_ok status); simpl; [reflexivity|].
  destruct search0 as [s|]; simpl; [|reflexivity].
  destruct (build_mails lib srv (split s) _ _) as [t [res|o]]; reflexivity.
Qed.

(** Every run, whatever the server and the library answer: no call ends
    the session, and the run ends in [fail_json] exactly when its last
    call is one of the four failing calls. *)
Lemma run_module_inv (a : args) :
  count is_close (fst (run_module lib srv a)) = 0 /\
  match snd (run_module lib srv a) with
  | FailJson msg r =>
      last_failure (fst (run_module lib srv a)) = Some msg /\
      mails_count r = 0 /\
      r_host r = host (module_params a) /\
      r_username r = username (module_params a) /\
      changed r = true
  | _ => last_failure (fst (run_module lib srv a)) = None
  end.
Proof.
  unfold run_module, run_module_M, bind, call, exit_json.
  fold (effective_port (module_params a)).
  destruct (a_check_mode a); simpl; [split; reflexivity|].
  destruct (srv_connect srv _ _ _) as [exn|[]]; simpl;
    [repeat split; reflexivity|].
  destruct (srv_login srv _ _) as [exn|[]]; simpl;
    [repeat split; reflexivity|].
  destruct (srv_select srv _) as [exn|st]; simpl;
    [repeat split; reflexivity|].
  destruct (srv_search srv _) as [exn|[status search0]] eqn:Hs; simpl;
    [repeat split; reflexivity|].
  destruct (not_ok status) eqn:Hn; simpl.
  { unfold last_failure. simpl. rewrite Hn. repeat split; reflexivity. }
  destruct search0 as [s|]; simpl.
  2:{ unfold last_failure. simpl. rewrite Hn. split; reflexivity. }
  match goal with
  | |- context [build_mails lib srv ?ids ?res ?t] =>
      destruct (build_mails lib srv ids res t) as [t' x] eqn:Hb
  end.
  apply build_mails_inv in Hb. destruct Hb as [Hc Hx].
  assert (H0 : forall t, t = t' -> count is_close t = 0).
  { intros t ->. rewrite Hc. reflexivity. }
  destruct x as [res'|[r|msg r|exn]]; simpl.
  - split; [now apply H0|]. apply Hx. unfold last_failure. simpl.
    now rewrite Hn.
  - contradiction.
  - split; [now apply H0|]. exact Hx.
  - split; [now apply H0|]. exact Hx.
Qed.

(** When every id of the answer delivers, the run succeeds with the mails
    in the order of the ids, and a count that is their number. *)
Lemma run_module_all_delivered (a : args) (s : string) (ms : list mail) :
  searched srv a "OK" (Some s) ->
  Forall2 (delivers lib srv) (split s) ms ->
  exists r,
    run_module lib srv a =
      (opening srv a ++ map (fetch_event srv) (split s), ExitJson r) /\
    mails r = ms /\
    mails_count r = length ms /\
    r_host r = host (module_params a) /\
    r_username r = username (module_params a) /\
    changed r = true.
Proof.
  intros Hs Hd. rewrite (run_module_searched a _ _ Hs). simpl.
  rewrite (build_mails_delivers lib srv _ _ Hd).
  destruct (mails_fold_append ms (initial_result (module_params a)))
    as (Hm & _ & Hh & Hu & Hc).
  eexists. split; [reflexivity|]. simpl.
  rewrite Hm, Hh, Hu, Hc. simpl. repeat split.
Qed.

(** An exception of the search is caught by nothing: the run has no
    result, and in particular no empty success. *)
Lemma search_raises_uncaught (a : args) (st exn : string) :
  let p := module_params a in
  a_check_mode a = false ->
  srv_connect srv (tls p) (host p) (effective_port p) = Returns tt ->
  srv_login srv (username p) (password p) = Returns tt ->
  srv_select srv (mailbox p) = Returns st ->
  srv_search srv (make_search_array (filter p)) = Raises exn ->
  run_module lib srv a = (opening srv a, Uncaught exn).
Proof.
  intros p Hc Hconn Hlog Hsel Hs.
  unfold run_module, run_module_M, opening, bind, call.
  fold p. fold (effective_port p).
  now rewrite Hc, Hconn, Hlog, Hsel, Hs.
Qed.

End Runs.

Import Fixtures.

(** A pass fails with a result only on a fetch that returned a status
    other than OK, and its message is always the same. *)
Lemma pass_failed (lib : email_lib) (srv : imap_server) (email_id msg : string) :
  pass lib srv email_id = Failed msg <->
  msg = "Error parsing" /\
  exists status content0,
    srv_fetch srv email_id = Returns (status, content0) /\ status <> "OK".
Proof.
  unfold pass. split.
  - destruct (srv_fetch srv email_id) as [exn|[status content0]];
      [discriminate|].
    destruct (not_ok status) eqn:Hn.
    + intros H. inversion H. split; [reflexivity|].
      exists status, content0. split; [reflexivity | now apply not_ok_true].
    + destruct (parse_content lib content0) as [exn|m]; [discriminate|].
      destruct (decode_mail lib m); discriminate.
  - intros [-> (status & content0 & -> & Hne)].
    apply not_ok_true in Hne. now rewrite Hne.
Qed.

(* ===================================================================== *)
(** ** The claims *)
(* ===================================================================== *)

(** C1 fails on the code: with five matches and the fetch of the third
    refused, the retrieval does abort with the failure "Error parsing" and
    its [mails_count] is 0, not 2; but the in-progress list is not
    discarded: the two mails decoded before the refused fetch are in the
    result that [fail_json] hands to the caller. *)
Theorem C1_partial_list_reaches_caller :
  breaks lib3 srv_third_fails "3" /\
  exists r,
    snd (run_module lib3 srv_third_fails task0) = FailJson "Error parsing" r /\
    mails_count r = 0 /\
    mails r = [mail1; mail2] /\
    mails r <> [].
Proof.
  split; [intros m H; vm_compute in H; discriminate|].
  eexists. split; [vm_compute; reflexivity|]. simpl.
  split; [reflexivity|]. split; [reflexivity|]. discriminate.
Qed.

(** What does hold when fetch or decode fails on an id of the search
    answer (the ids before it having been delivered): the retrieval
    aborts.  The run does not end in a success; a fetch with a status
    other than OK ends it in [fail_json] with the message "Error parsing";
    an exception raised by the fetch or while decoding ends it in that
    exception, with no result; a result handed over by [fail_json] has a
    [mails_count] of 0, never the truncated length; and no id after the
    failing one is fetched. *)
Lemma failure_aborts_retrieval
  (lib : email_lib) (srv : imap_server) (a : args) (s : string)
  (pre : list string) (ms : list mail) (bad : string) (post : list string) :
  searched srv a "OK" (Some s) ->
  split s = pre ++ bad :: post ->
  Forall2 (delivers lib srv) pre ms ->
  breaks lib srv bad ->
  (forall r, snd (run_module lib srv a) <> ExitJson r) /\
  (forall msg r,
      snd (run_module lib srv a) = FailJson msg r ->
      msg = "Error parsing" /\ mails_count r = 0) /\
  (forall status content0,
      srv_fetch srv bad = Returns (status, content0) -> status <> "OK" ->
      exists r, snd (run_module lib srv a) = FailJson "Error parsing" r) /\
  (forall exn,
      pass lib srv bad = Crashed exn ->
      snd (run_module lib srv a) = Uncaught exn) /\
  fetched (fst (run_module lib srv a)) = pre ++ [bad].
Proof.
  intros Hs Hsplit Hpre Hbad.
  rewrite (run_module_searched lib srv a _ _ Hs). simpl.
  rewrite Hsplit, (build_mails_breaks lib srv pre ms bad post Hpre Hbad).
  cbn [fst snd].
  destruct (mails_fold_append ms (initial_result (module_params a)))
    as (_ & Hcount & _).
  repeat split.
  - intros r. destruct (pass lib srv bad) as [m|msg|exn] eqn:E; simpl;
      try discriminate.
    exfalso. exact (Hbad m E).
  - destruct (pass lib srv bad) as [m|msg'|exn] eqn:E; simpl in H;
      try discriminate.
    inversion H; subst. now apply pass_failed in E.
  - destruct (pass lib srv bad) as [m|msg'|exn] eqn:E; simpl in H;
      try discriminate.
    inversion H; subst. exact Hcount.
  - intros status content0 Hf Hne.
    assert (E : pass lib srv bad = Failed "Error parsing").
    { apply pass_failed. split; [reflexivity|]. now exists status, content0. }
    rewrite E. simpl. eexists. reflexivity.
  - intros exn E. rewrite E. reflexivity.
  - rewrite fetched_app, fetched_fetch_events. reflexivity.
Qed.

(** The lemma on the run of five matches whose third fetch is refused. *)
Lemma failure_aborts_retrieval_third_of_five :
  (forall r, snd (run_module lib3 srv_third_fails task0) <> ExitJson r) /\
  (forall msg r,
      snd (run_module lib3 srv_third_fails task0) = FailJson msg r ->
      msg = "Error parsing" /\ mails_count r = 0) /\
  (forall status content0,
      srv_fetch srv_third_fails "3" = Returns (status, content0) ->
      status <> "OK" ->
      exists r,
        snd (run_module lib3 srv_third_fails task0) = FailJson "Error parsing" r) /\
  (forall exn,
      pass lib3 srv_third_fails "3" = Crashed exn ->
      snd (run_module lib3 srv_third_fails task0) = Uncaught exn) /\
  fetched (fst (run_module lib3 srv_third_fails task0)) = ["1"; "2"] ++ ["3"].
Proof.
  apply (failure_aborts_retrieval lib3 srv_third_fails task0
           "1 2 3 4 5" ["1"; "2"] [mail1; mail2] "3" ["4"; "5"]).
  - repeat split. now exists "OK".
  - reflexivity.
  - repeat constructor.
  - intros m H. vm_compute in H. discriminate.
Defined.

(** C2 fails on the code: with five matches and the fetch of the third
    refused, the result handed to the caller holds two mails and a
    [mails_count] of 0. *)
Theorem C2_count_differs_from_length :
  exists r,
    snd (run_module lib3 srv_third_fails task0) = FailJson "Error parsing" r /\
    length (mails r) = 2 /\
    mails_count r = 0 /\
    mails_count r <> length (mails r).
Proof.
  eexists. split; [vm_compute; reflexivity|]. simpl.
  repeat split. discriminate.
Qed.

(** On the paths that end in a success, the count is the length of the
    list (check mode included). *)
Lemma success_count_is_length (lib : email_lib) (srv : imap_server)
  (a : args) (r : result) :
  snd (run_module lib srv a) = ExitJson r -> mails_count r = length (mails r).
Proof.
  unfold run_module, run_module_M, bind, call, exit_json.
  destruct (a_check_mode a); simpl.
  { intros H. inversion H. reflexivity. }
  destruct (srv_connect srv _ _ _) as [exn|[]]; simpl; [discriminate|].
  destruct (srv_login srv _ _) as [exn|[]]; simpl; [discriminate|].
  destruct (srv_select srv _) as [exn|st]; simpl; [discriminate|].
  destruct (srv_search srv _) as [exn|[status search0]]; simpl;
    [discriminate|].
  destruct (not_ok status); simpl; [discriminate|].
  destruct search0 as [s|]; simpl; [|discriminate].
  match goal with
  | |- context [build_mails lib srv ?ids ?res ?t] =>
      destruct (build_mails lib srv ids res t) as [t' x] eqn:Hb
  end.
  apply build_mails_inv in Hb. destruct Hb as [_ Hx].
  destruct x as [res'|[r'|msg r'|exn]]; simpl; try discriminate.
  - intros H. inversion H. reflexivity.
  - contradiction.
Qed.

(** The status that select returns is not looked at: whenever the session
    gets to the select and the select returns, the search is issued. *)
Lemma search_follows_select (lib : email_lib) (srv : imap_server) (a : args)
  (st : string) :
  let p := module_params a in
  a_check_mode a = false ->
  srv_connect srv (tls p) (host p) (effective_port p) = Returns tt ->
  srv_login srv (username p) (password p) = Returns tt ->
  srv_select srv (mailbox p) = Returns st ->
  exists t, fst (run_module lib srv a) = opening srv a ++ t.
Proof.
  intros p Hc Hconn Hlog Hsel.
  destruct (srv_search srv (make_search_array (filter p)))
    as [exn|[status search0]] eqn:Hs.
  - exists []. unfold run_module, run_module_M, opening, bind, call.
    fold p. fold (effective_port p).
    rewrite Hc, Hconn, Hlog, Hsel, Hs. reflexivity.
  - assert (H : searched srv a status search0).
    { repeat split; try assumption. now exists st. }
    rewrite (run_module_searched lib srv a _ _ H).
    destruct (not_ok status); [now exists []|].
    destruct search0 as [s|]; [|now exists []].
    destruct (build_mails lib srv (split s) _ _) as [t' x] eqn:Hb.
    assert (Ht : exists t, t' = opening srv a ++ t).
    { clear -Hb. revert Hb.
      generalize (initial_result (module_params a)) (opening srv a).
      induction (split s) as [|i ids IH]; intros res t Hb.
      - inversion Hb. exists []. now rewrite app_nil_r.
      - rewrite build_mails_cons in Hb.
        destruct (pass lib srv i).
        + apply IH in Hb. destruct Hb as [u ->].
          exists (fetch_event srv i :: u). now rewrite <- app_assoc.
        + inversion Hb. now exists [fetch_event srv i].
        + inversion Hb. now exists [fetch_event srv i]. }
    destruct Ht as [t ->]. exists t. destruct x; reflexivity.
Qed.

(** C3 fails on the code: the mailbox does not exist and the server
    answers NO to the select; the module does not stop there with a
    failure of its own but goes on to issue the search, and the run ends
    in the exception that the search raises. *)
Theorem C3_refused_select_goes_on_to_search :
  run_module lib3 srv_no_mailbox (task None (Some "NOPE")) =
  ([ EvConnect true "mail.example.com" 993 (Returns tt);
     EvLogin "ann" "secret" (Returns tt);
     EvSelect "NOPE" (Returns "NO");
     EvSearch ["ALL"]
       (Raises "command SEARCH illegal in state AUTH, only allowed in states SELECTED") ],
   Uncaught "command SEARCH illegal in state AUTH, only allowed in states SELECTED")
  /\ count is_search (fst (run_module lib3 srv_no_mailbox
                             (task None (Some "NOPE")))) = 1.
Proof. split; reflexivity. Qed.

(** The body of a multipart message is the decoded payload of its first
    part. *)
Lemma body_field_multipart (lib : email_lib) (hs : list (string * string))
  (p : message) (ps : list message) :
  body_field lib (Multipart hs (p :: ps)) = Returns (get_payload_decoded lib p).
Proof. reflexivity. Qed.

(** A message that is not multipart has no part 0: [get_payload(0)]
    raises. *)
Lemma body_field_single (lib : email_lib) (hs : list (string * string))
  (payload : string) :
  body_field lib (Single hs payload) =
  Raises "TypeError: Expected list, got <class 'str'>".
Proof. reflexivity. Qed.

(** C4 fails on the code: a message that is not multipart, with its To,
    From and Subject fields, is not decoded to a record; reading its body
    raises, and the retrieval that meets it ends in that exception. *)
Theorem C4_single_part_message_raises :
  is_multipart plain_msg = false /\
  decode_mail lib3 plain_msg =
    Raises "TypeError: Expected list, got <class 'str'>" /\
  snd (run_module lib3 srv_plain task0) =
    Uncaught "TypeError: Expected list, got <class 'str'>".
Proof. repeat split; reflexivity. Qed.

(** A field that the message does not have: Python 3 raises. *)
Lemma header_field_missing_py3 (lib : email_lib) (msg : message)
  (name : string) :
  PY3 lib = true ->
  getitem msg name = None ->
  header_field lib msg name =
  Raises "TypeError: expected string or bytes-like object".
Proof.
  intros Hpy Hget. unfold header_field, decode_header. now rewrite Hget, Hpy.
Qed.

(** C5 fails on the code: for a message without Subject, Python 3 raises
    while decoding the field and the retrieval ends in that exception;
    Python 2 gives the text None as the subject.  Neither gives the empty
    string. *)
Theorem C5_missing_header_is_not_empty :
  getitem no_subject_msg "subject" = None /\
  decode_mail lib3 no_subject_msg =
    Raises "TypeError: expected string or bytes-like object" /\
  snd (run_module lib3 srv_no_subject task0) =
    Uncaught "TypeError: expected string or bytes-like object" /\
  exists m,
    decode_mail lib2 no_subject_msg = Returns m /\
    mail_subject m = "None" /\ mail_subject m <> "".
Proof.
  repeat split; try reflexivity.
  eexists. split; [reflexivity|]. simpl. split; [reflexivity | discriminate].
Qed.




(** C7, as stated, fails: a retrieval that succeeds, with two mails, has
    made no call that ends the session, not one. *)
Lemma C7_success_without_close :
  (exists r, snd (run_module lib3 srv_two task0) = ExitJson r) /\
  count is_close (fst (run_module lib3 srv_two task0)) <> 1.
Proof.
  split; [eexists; vm_compute; reflexivity|]. vm_compute. discriminate.
Qed.

(** C7, amended: on every exit path of the retrieval, success or failure
    at any stage, the session is given neither a close nor a logout: the
    number of such calls is zero. *)
Theorem C7_session_is_never_closed (lib : email_lib) (srv : imap_server)
  (a : args) :
  count is_close (fst (run_module lib srv a)) = 0.
Proof. exact (proj1 (run_module_inv lib srv a)). Qed.

(** C8: when the search is answered with a status other than OK, the
    retrieval fails with "Error filtering", no fetch is made and the
    result holds no mail; when it is answered OK with an empty id list,
    the retrieval succeeds with no mail and a count of zero. *)
Theorem C8_search_status (lib : email_lib) (srv : imap_server) (a : args)
  (status : string) (search0 : option string) :
  searched srv a status search0 ->
  mails (initial_result (module_params a)) = [] /\
  mails_count (initial_result (module_params a)) = 0 /\
  (status <> "OK" ->
   run_module lib srv a =
   (opening srv a,
    FailJson "Error filtering" (initial_result (module_params a)))) /\
  (status = "OK" ->
   forall s, search0 = Some s -> split s = [] ->
   run_module lib srv a =
   (opening srv a, ExitJson (initial_result (module_params a)))).
Proof.
  intros Hs. rewrite (run_module_searched lib srv a _ _ Hs).
  repeat split.
  - intros Hne. apply not_ok_true in Hne. now rewrite Hne.
  - intros -> s -> Hsplit. simpl. rewrite Hsplit. reflexivity.
Qed.

Lemma C8_search_status_witness :
  run_module lib3 srv_search_no task0 =
    (opening srv_search_no task0,
     FailJson "Error filtering" (initial_result (module_params task0))) /\
  run_module lib3 srv_none task0 =
    (opening srv_none task0, ExitJson (initial_result (module_params task0))).
Proof.
  split.
  - apply (C8_search_status lib3 srv_search_no task0 "NO" (Some "")).
    + repeat split. now exists "OK".
    + discriminate.
  - apply (C8_search_status lib3 srv_none task0 "OK" (Some "")) with (s := "").
    + repeat split. now exists "OK".
    + reflexivity.
    + reflexivity.
    + reflexivity.
Defined.


(** The example of the specification. *)
Example compile_subject_unseen :
  make_search_array [("SUBJECT", PyStr "Invoice"); ("UNSEEN", PyNone)] =
  ["SUBJECT"; "Invoice"; "UNSEEN"].
Proof. reflexivity. Qed.

(** An exception of the select is caught by nothing. *)
Lemma select_raises_uncaught (lib : email_lib) (srv : imap_server)
  (a : args) (exn : string) :
  let p := module_params a in
  a_check_mode a = false ->
  srv_connect srv (tls p) (host p) (effective_port p) = Returns tt ->
  srv_login srv (username p) (password p) = Returns tt ->
  srv_select srv (mailbox p) = Raises exn ->
  snd (run_module lib srv a) = Uncaught exn.
Proof.
  intros p Hc Hconn Hlog Hsel.
  unfold run_module, run_module_M, bind, call.
  fold p. fold (effective_port p).
  now rewrite Hc, Hconn, Hlog, Hsel.
Qed.


(** Each of the four points is reached by some run. *)
Example failure_at_connect :
  run_module lib3 srv_down task0 =
  ([EvConnect true "mail.example.com" 993
      (Raises "[Errno 111] Connection refused")],
   FailJson "[Errno 111] Connection refused"
            (initial_result (module_params task0))).
Proof. reflexivity. Qed.

Example failure_at_login :
  run_module lib3 srv_bad_login task0 =
  ([EvConnect true "mail.example.com" 993 (Returns tt);
    EvLogin "ann" "secret"
      (Raises "[AUTHENTICATIONFAILED] Invalid credentials")],
   FailJson "[AUTHENTICATIONFAILED] Invalid credentials"
            (initial_result (module_params task0))).
Proof. reflexivity. Qed.

Example failure_at_search :
  snd (run_module lib3 srv_search_no task0) =
  FailJson "Error filtering" (initial_result (module_params task0)).
Proof. reflexivity. Qed.

Example failure_at_fetch :
  last_failure (fst (run_module lib3 srv_third_fails task0)) =
  Some "Error parsing".
Proof. reflexivity. Qed.

(** The scenario of the specification: two matches, both delivered. *)
Example two_matches :
  exists r,
    snd (run_module lib3 srv_two task0) = ExitJson r /\
    mails r = [mail1; mail2] /\ mails_count r = 2 /\ changed r = true.
Proof. eexists. split; [vm_compute; reflexivity|]. repeat split. Qed.

(* ===================================================================== *)
(** ** Beyond the claims: the shape of every run *)
(* ===================================================================== *)

Section Coverage.

Variable lib : email_lib.
Variable srv : imap_server.

(** The loop, completely: it delivers a prefix of the ids, and either that
    is all of them, or the next id breaks and stops the loop. *)
Lemma build_mails_shape (ids : list string) :
  forall res t t' x,
    build_mails lib srv ids res t = (t', x) ->
    exists pre ms post,
      ids = pre ++ post /\
      Forall2 (delivers lib srv) pre ms /\
      match x with
      | inl res' =>
          post = [] /\
          t' = t ++ map (fetch_event srv) pre /\
          res' = fold_left append_mail ms res
      | inr o =>
          exists bad post',
            post = bad :: post' /\
            breaks lib srv bad /\
            t' = t ++ map (fetch_event srv) (pre ++ [bad]) /\
            o = stop_outcome (pass lib srv bad) (fold_left append_mail ms res)
      end.
Proof.
  induction ids as [|i ids IH]; intros res t t' x H.
  - simpl in H. unfold ret in H. inversion H; subst.
    exists [], [], []. repeat split; [constructor | now rewrite app_nil_r].
  - rewrite build_mails_cons in H.
    destruct (pass lib srv i) as [m|msg|exn] eqn:E.
    + apply IH in H. destruct H as (pre & ms & post & -> & Hd & Hx).
      exists (i :: pre), (m :: ms), post.
      split; [reflexivity|]. split; [now constructor|].
      destruct x as [res'|o].
      * destruct Hx as (-> & -> & ->). repeat split.
        simpl. now rewrite <- app_assoc.
      * destruct Hx as (bad & post' & -> & Hb & -> & ->).
        exists bad, post'. repeat split; try assumption.
        simpl. now rewrite <- app_assoc.
    + inversion H; subst. exists [], [], (i :: ids).
      split; [reflexivity|]. split; [constructor|].
      exists i, ids. repeat split.
      * intros m Hm. rewrite E in Hm. discriminate.
      * now rewrite E.
    + inversion H; subst. exists [], [], (i :: ids).
      split; [reflexivity|]. split; [constructor|].
      exists i, ids. repeat split.
      * intros m Hm. rewrite E in Hm. discriminate.
      * now rewrite E.
Qed.

(** The run, stage by stage. *)
Lemma run_module_stages (a : args) :
  let p := module_params a in
  let init := initial_result p in
  run_module lib srv a =
  if a_check_mode a then ([], ExitJson init) else
  match srv_connect srv (tls p) (host p) (effective_port p) with
  | Raises exn => (firstn 1 (opening srv a), FailJson exn init)
  | Returns _ =>
  match srv_login srv (username p) (password p) with
  | Raises exn => (firstn 2 (opening srv a), FailJson exn init)
  | Returns _ =>
  match srv_select srv (mailbox p) with
  | Raises exn => (firstn 3 (opening srv a), Uncaught exn)
  | Returns _ =>
  match srv_search srv (make_search_array (filter p)) with
  | Raises exn => (opening srv a, Uncaught exn)
  | Returns (status, search0) =>
      if not_ok status then (opening srv a, FailJson "Error filtering" init)
      else
        match search0 with
        | None =>
            (opening srv a,
             Uncaught "AttributeError: 'NoneType' object has no attribute 'split'")
        | Some s =>
            match build_mails lib srv (split s) init (opening srv a) with
            | (t, inl res) =>
                (t, ExitJson (set_mails_count res (length (mails res))))
            | (t, inr o) => (t, o)
            end
        end
  end end end end.
Proof.
  intros p init.
  unfold run_module, run_module_M, opening, bind, call, exit_json.
  fold p. fold init. fold (effective_port p).
  destruct (a_check_mode a); simpl; [reflexivity|].
  destruct (srv_connect srv _ _ _) as [exn|[]]; simpl; [reflexivity|].
  destruct (srv_login srv _ _) as [exn|[]]; simpl; [reflexivity|].
  destruct (srv_select srv _) as [exn|st]; simpl; [reflexivity|].
  destruct (srv_search srv _) as [exn|[status search0]]; simpl;
    [reflexivity|].
  destruct (not_ok status); simpl; [reflexivity|].
  destruct search0 as [s|]; simpl; [|reflexivity].
  destruct (build_mails lib srv (split s) _ _) as [t [res|o]]; reflexivity.
Qed.

Lemma fetched_firstn_opening (a : args) (n : nat) :
  fetched (firstn n (opening srv a)) = [].
Proof.
  unfold opening.
  destruct n as [|[|[|[|n]]]]; try reflexivity.
  simpl. now rewrite firstn_nil.
Qed.

Lemma fetched_opening (a : args) : fetched (opening srv a) = [].
Proof. reflexivity. Qed.

End Coverage.

Import Fixtures2.

Lemma firstn_opening (srv : imap_server) (a : args) :
  firstn 4 (opening srv a) = opening srv a.
Proof. reflexivity. Qed.

(** Every trace is a prefix of connect, login, select, search, followed
    (only after the search) by the fetches of a prefix of the answered
    ids. *)
Lemma run_trace_shape (lib : email_lib) (srv : imap_server) (a : args) :
  exists n pre post,
    fst (run_module lib srv a) =
      firstn n (opening srv a) ++ map (fetch_event srv) pre /\
    (n = 4 \/ pre = []) /\
    answered_ids srv a = pre ++ post.
Proof.
  pose proof (run_module_stages lib srv a) as Hst. cbv zeta in Hst.
  rewrite Hst. clear Hst. unfold answered_ids.
  destruct (a_check_mode a).
  { exists 0, []. eexists. repeat split. now right. }
  destruct (srv_connect srv _ _ _) as [exn|[]].
  { exists 1, []. eexists. cbn [fst]. rewrite app_nil_r.
    repeat split. now right. }
  destruct (srv_login srv _ _) as [exn|[]].
  { exists 2, []. eexists. cbn [fst]. rewrite app_nil_r.
    repeat split. now right. }
  destruct (srv_select srv _) as [exn|st].
  { exists 3, []. eexists. cbn [fst]. rewrite app_nil_r.
    repeat split. now right. }
  destruct (srv_search srv _) as [exn|[status search0]].
  { exists 4, [], []. cbn [fst]. rewrite app_nil_r. repeat split. now left. }
  destruct (not_ok status).
  { exists 4, []. eexists. cbn [fst]. rewrite app_nil_r.
    repeat split. now left. }
  destruct search0 as [s|].
  2:{ exists 4, [], []. cbn [fst]. rewrite app_nil_r.
      repeat split. now left. }
  destruct (build_mails lib srv (split s) _ _) as [t' x] eqn:Hb.
  apply build_mails_shape in Hb.
  destruct Hb as (pre & ms & post & Hids & Hd & Hx).
  destruct x as [res'|o].
  - destruct Hx as (-> & -> & _). exists 4, pre, []. cbn [fst].
    rewrite firstn_opening. repeat split; [now left | exact Hids].
  - destruct Hx as (bad & post' & -> & _ & -> & _).
    exists 4, (pre ++ [bad]), post'. cbn [fst].
    rewrite firstn_opening. repeat split; [now left|].
    rewrite Hids. now rewrite <- app_assoc.
Qed.

(** The trace is empty exactly in check mode. *)
Lemma no_call_iff_check_mode (lib : email_lib) (srv : imap_server)
  (a : args) :
  fst (run_module lib srv a) = [] <-> a_check_mode a = true.
Proof.
  pose proof (run_module_stages lib srv a) as Hst. cbv zeta in Hst.
  destruct (a_check_mode a) eqn:Hc.
  - rewrite Hst. split; reflexivity.
  - split; [|discriminate]. intros Ht. exfalso. revert Ht. rewrite Hst.
    unfold opening.
    destruct (srv_connect srv _ _ _) as [exn|[]]; [discriminate|].
    destruct (srv_login srv _ _) as [exn|[]]; [discriminate|].
    destruct (srv_select srv _) as [exn|st]; [discriminate|].
    destruct (srv_search srv _) as [exn|[status search0]]; [discriminate|].
    destruct (not_ok status); [discriminate|].
    destruct search0 as [s|]; [|discriminate].
    match goal with
    | |- context [build_mails lib srv ?i ?r ?t] =>
        destruct (build_mails lib srv i r t) as [t' x] eqn:Hb
    end.
    apply build_mails_shape in Hb.
    destruct Hb as (pre & ms & post & _ & _ & Hx).
    destruct x as [res'|o].
    + destruct Hx as (_ & -> & _). discriminate.
    + destruct Hx as (bad & post' & _ & _ & -> & _). discriminate.
Qed.

(** X1: in check mode the module makes no call at all, whatever the
    server would answer, and returns as a success the result it starts
    from: the host and username of the task, no mail, a count of zero,
    [changed] true.  Out of check mode there is always at least one call. *)
Theorem X1_check_mode_makes_no_call (lib : email_lib) (srv : imap_server)
  (a : args) :
  (fst (run_module lib srv a) = [] <-> a_check_mode a = true) /\
  (a_check_mode a = true ->
   run_module lib srv a =
   ([], ExitJson {| changed := true;
                    r_username := a_username a;
                    r_host := default "localhost" (a_host a);
                    mails := [];
                    mails_count := 0 |})).
Proof.
  split; [apply no_call_iff_check_mode|].
  intros Hc. pose proof (run_module_stages lib srv a) as Hst.
  cbv zeta in Hst. rewrite Hst, Hc. reflexivity.
Qed.

Lemma X1_check_mode_makes_no_call_witness :
  run_module lib3 srv_down task_check =
  ([], ExitJson {| changed := true;
                   r_username := "ann";
                   r_host := "mail.example.com";
                   mails := [];
                   mails_count := 0 |}).
Proof.
  apply (proj2 (X1_check_mode_makes_no_call lib3 srv_down task_check)).
  reflexivity.
Defined.

(** X2: out of check mode the first call is the connection, to the host
    of the task, with TLS unless the task says no, and to a port that is
    never negative: the port of the task when it is zero or more, and
    otherwise 993 with TLS and 143 without. *)
Theorem X2_connection_port (lib : email_lib) (srv : imap_server) (a : args) :
  a_check_mode a = false ->
  exists pt r rest,
    fst (run_module lib srv a) =
      EvConnect (default true (a_tls a)) (default "localhost" (a_host a))
                pt r :: rest /\
    (0 <= pt)%Z /\
    pt = (if (default (-1) (a_port a) <? 0)
          then (if default true (a_tls a) then 993 else 143)
          else default (-1) (a_port a))%Z.
Proof.
  intros Hc.
  destruct (run_trace_shape lib srv a) as (n & pre & post & Ht & Hn & _).
  exists (effective_port (module_params a)).
  assert (Hn0 : n <> 0).
  { intros ->. destruct Hn as [Hn|Hn]; [discriminate|]. subst pre.
    simpl in Ht. apply no_call_iff_check_mode in Ht. congruence. }
  destruct n as [|n]; [contradiction|].
  rewrite Ht. unfold opening. simpl. eexists. eexists.
  split; [reflexivity|].
  unfold effective_port. simpl.
  destruct (default true (a_tls a));
    destruct (default (-1)%Z (a_port a) <? 0)%Z eqn:E;
    repeat split; try lia; apply Z.ltb_ge in E; lia.
Qed.

Lemma X2_connection_port_witness :
  exists pt r rest,
    fst (run_module lib3 srv_two task_port42) =
      EvConnect false "imap.myhost.com" pt r :: rest /\
    (0 <= pt)%Z /\ pt = 42%Z.
Proof.
  exact (X2_connection_port lib3 srv_two task_port42 eq_refl).
Defined.

(** X3: the calls of every run are in the order of the protocol: a prefix
    of connect, login, select, search, and then, only once the search has
    been made, fetches; the ids fetched are a prefix of the ids of the
    search answer, in the order of the answer, each fetched once per
    occurrence. *)
Theorem X3_calls_in_protocol_order (lib : email_lib) (srv : imap_server)
  (a : args) :
  exists n pre post,
    fst (run_module lib srv a) =
      firstn n (opening srv a) ++ map (fetch_event srv) pre /\
    (n = 4 \/ pre = []) /\
    answered_ids srv a = pre ++ post.
Proof. exact (run_trace_shape lib srv a). Qed.

(** X4: when the search is answered OK and every id of the answer is
    fetched and decoded, the run is a success whose mails are those of the
    ids, in the order of the answer, whose count is their number, and whose
    calls are the four opening calls and one fetch per id. *)
Theorem X4_all_delivered_is_success (lib : email_lib) (srv : imap_server)
  (a : args) (s : string) (ms : list mail) :
  searched srv a "OK" (Some s) ->
  Forall2 (delivers lib srv) (split s) ms ->
  run_module lib srv a =
  (opening srv a ++ map (fetch_event srv) (split s),
   ExitJson {| changed := true;
               r_username := a_username a;
               r_host := default "localhost" (a_host a);
               mails := ms;
               mails_count := length ms |}).
Proof.
  intros Hs Hd. rewrite (run_module_searched lib srv a _ _ Hs). simpl.
  rewrite (build_mails_delivers lib srv _ _ Hd).
  destruct (mails_fold_append ms (initial_result (module_params a)))
    as (Hm & _ & Hh & Hu & Hc).
  destruct (fold_left append_mail ms (initial_result (module_params a)))
    as [c u h m n].
  simpl in *. subst. reflexivity.
Qed.

Lemma X4_all_delivered_is_success_witness :
  run_module lib3 srv_two task0 =
  (opening srv_two task0 ++ map (fetch_event srv_two) (split "1 2"),
   ExitJson {| changed := true;
               r_username := "ann";
               r_host := "mail.example.com";
               mails := [mail1; mail2];
               mails_count := 2 |}).
Proof.
  apply (X4_all_delivered_is_success lib3 srv_two task0 "1 2" [mail1; mail2]).
  - repeat split. now exists "OK".
  - repeat constructor.
Defined.

(** X5: a success is never partial.  In every success result the count is
    the length of the mail list; and out of check mode a success means
    that the search was answered OK and that the mails are those of all the
    ids of the answer, one per id, in order. *)
Theorem X5_success_is_complete (lib : email_lib) (srv : imap_server)
  (a : args) (r : result) :
  snd (run_module lib srv a) = ExitJson r ->
  mails_count r = length (mails r) /\
  (a_check_mode a = true /\ mails r = [] \/
   exists s,
     srv_search srv (make_search_array (filter (module_params a))) =
       Returns ("OK", Some s) /\
     Forall2 (delivers lib srv) (split s) (mails r)).
Proof.
  pose proof (run_module_stages lib srv a) as Hst. cbv zeta in Hst.
  rewrite Hst. clear Hst.
  destruct (a_check_mode a).
  { simpl. intros H. inversion H. split; [reflexivity|]. now left. }
  destruct (srv_connect srv _ _ _) as [exn|[]]; [discriminate|].
  destruct (srv_login srv _ _) as [exn|[]]; [discriminate|].
  destruct (srv_select srv _) as [exn|st]; [discriminate|].
  destruct (srv_search srv _) as [exn|[status search0]]; [discriminate|].
  destruct (not_ok status) eqn:Hn; [discriminate|].
  apply not_ok_false in Hn. subst status.
  destruct search0 as [s|]; [|discriminate].
  destruct (build_mails lib srv (split s) _ _) as [t' x] eqn:Hb.
  apply build_mails_shape in Hb.
  destruct Hb as (pre & ms & post & Hids & Hd & Hx).
  destruct x as [res'|o].
  - destruct Hx as (-> & _ & ->). rewrite app_nil_r in Hids. subst pre.
    simpl. intros H. inversion H. simpl. split; [reflexivity|].
    right. exists s. split; [reflexivity|].
    destruct (mails_fold_append ms (initial_result (module_params a)))
      as (Hm & _). rewrite Hm. exact Hd.
  - destruct Hx as (bad & post' & _ & Hbad & _ & ->). simpl.
    destruct (pass lib srv bad) as [m|msg|exn] eqn:E; simpl;
      try discriminate.
    exfalso. exact (Hbad m E).
Qed.

Lemma X5_success_is_complete_witness :
  2 = length [mail1; mail2] /\
  (a_check_mode task0 = true /\ [mail1; mail2] = [] \/
   exists s,
     srv_search srv_two (make_search_array (filter (module_params task0))) =
       Returns ("OK", Some s) /\
     Forall2 (delivers lib3 srv_two) (split s) [mail1; mail2]).
Proof.
  exact (X5_success_is_complete lib3 srv_two task0
           {| changed := true; r_username := "ann";
              r_host := "mail.example.com";
              mails := [mail1; mail2]; mails_count := 2 |} eq_refl).
Defined.

(** X6: what a failure result holds.  Its mails are exactly those of the
    ids fetched before the call that failed, one per id, in order; its
    count is 0; so the count is the length of the list exactly when at most
    one fetch was made. *)
Theorem X6_failure_payload (lib : email_lib) (srv : imap_server)
  (a : args) (msg : string) (r : result) :
  snd (run_module lib srv a) = FailJson msg r ->
  Forall2 (delivers lib srv) (removelast (fetched (fst (run_module lib srv a))))
          (mails r) /\
  mails_count r = 0 /\
  (mails_count r = length (mails r) <->
   length (fetched (fst (run_module lib srv a))) <= 1).
Proof.
  pose proof (run_module_stages lib srv a) as Hst. cbv zeta in Hst.
  rewrite Hst. clear Hst.
  assert (Hstage : forall t exn,
             fetched t = [] ->
             snd (t, FailJson exn (initial_result (module_params a)))
               = FailJson msg r ->
             Forall2 (delivers lib srv) (removelast (fetched (fst (t, FailJson exn (initial_result (module_params a)))))) (mails r) /\
             mails_count r = 0 /\
             (mails_count r = length (mails r) <->
              length (fetched (fst (t, FailJson exn (initial_result (module_params a))))) <= 1)).
  { intros t exn Ht H. simpl in *. inversion H; subst. rewrite Ht. simpl.
    repeat split; try constructor; lia. }
  destruct (a_check_mode a); [discriminate|].
  destruct (srv_connect srv _ _ _) as [exn|[]].
  { apply Hstage. reflexivity. }
  destruct (srv_login srv _ _) as [exn|[]].
  { apply Hstage. reflexivity. }
  destruct (srv_select srv _) as [exn|st]; [discriminate|].
  destruct (srv_search srv _) as [exn|[status search0]]; [discriminate|].
  destruct (not_ok status) eqn:Hn.
  { apply Hstage. reflexivity. }
  destruct search0 as [s|]; [|discriminate].
  destruct (build_mails lib srv (split s) _ _) as [t' x] eqn:Hb.
  apply build_mails_shape in Hb.
  destruct Hb as (pre & ms & post & Hids & Hd & Hx).
  destruct x as [res'|o]; [discriminate|].
  destruct Hx as (bad & post' & _ & Hbad & -> & ->). cbn [fst snd].
  destruct (pass lib srv bad) as [m|msg'|exn] eqn:E; cbn [stop_outcome];
    try discriminate.
  intros H. inversion H; subst. clear H.
  destruct (mails_fold_append ms (initial_result (module_params a)))
    as (Hm & Hc & _).
  rewrite Hm, Hc.
  rewrite fetched_app, fetched_fetch_events, fetched_opening.
  cbn [app mails mails_count initial_result].
  rewrite removelast_last, length_app. cbn [length].
  pose proof (Forall2_length Hd) as Hl.
  repeat split; try assumption; lia.
Qed.

Lemma X6_failure_payload_witness :
  Forall2 (delivers lib3 srv_third_fails)
    (removelast (fetched (fst (run_module lib3 srv_third_fails task0))))
    [mail1; mail2] /\
  0 = 0 /\
  (0 = 2 <-> length (fetched (fst (run_module lib3 srv_third_fails task0))) <= 1).
Proof.
  exact (X6_failure_payload lib3 srv_third_fails task0 "Error parsing"
           {| changed := true; r_username := "ann";
              r_host := "mail.example.com";
              mails := [mail1; mail2]; mails_count := 0 |} eq_refl).
Defined.

(** X7: every result that reaches the caller, success or failure, in
    check mode or not, has [changed] true and carries the host and the
    username of the task (the host being localhost when the task names
    none). *)
Theorem X7_result_fields (lib : email_lib) (srv : imap_server) (a : args)
  (r : result) :
  result_of (snd (run_module lib srv a)) = Some r ->
  changed r = true /\
  r_host r = default "localhost" (a_host a) /\
  r_username r = a_username a.
Proof.
  pose proof (run_module_stages lib srv a) as Hst. cbv zeta in Hst.
  rewrite Hst. clear Hst.
  destruct (a_check_mode a).
  { simpl. intros H. inversion H. repeat split. }
  destruct (srv_connect srv _ _ _) as [exn|[]].
  { simpl. intros H. inversion H. repeat split. }
  destruct (srv_login srv _ _) as [exn|[]].
  { simpl. intros H. inversion H. repeat split. }
  destruct (srv_select srv _) as [exn|st]; [discriminate|].
  destruct (srv_search srv _) as [exn|[status search0]]; [discriminate|].
  destruct (not_ok status).
  { simpl. intros H. inversion H. repeat split. }
  destruct search0 as [s|]; [|discriminate].
  destruct (build_mails lib srv (split s) _ _) as [t' x] eqn:Hb.
  apply build_mails_inv in Hb. destruct Hb as [_ Hx].
  destruct x as [res'|[r'|msg r'|exn]]; simpl.
  - destruct Hx as (_ & _ & Hh & Hu & Hc). intros H. inversion H; subst.
    simpl. rewrite Hc, Hh, Hu. repeat split.
  - contradiction.
  - destruct Hx as (_ & _ & Hh & Hu & Hc). intros H. inversion H; subst.
    rewrite Hc, Hh, Hu. repeat split.
  - discriminate.
Qed.

Lemma X7_result_fields_witness :
  true = true /\
  "mail.example.com" = default "localhost" (a_host task0) /\
  "ann" = a_username task0.
Proof.
  exact (X7_result_fields lib3 srv_third_fails task0
           {| changed := true; r_username := "ann";
              r_host := "mail.example.com";
              mails := [mail1; mail2]; mails_count := 0 |} eq_refl).
Defined.

(** X8: the search array has one token per entry of the filter plus one
    per entry whose value is a string that is not empty; and every key of
    the filter is among the tokens. *)
Theorem X8_token_count (f : list (string * pyval)) :
  length (make_search_array f) =
    length f + length (List.filter (fun kv => truthy (snd kv)) f) /\
  incl (map fst f) (make_search_array f).
Proof.
  rewrite make_search_array_spec. unfold compile_spec.
  induction f as [|[k v] f [IHl IHi]]; simpl.
  - split; [reflexivity | apply incl_refl].
  - rewrite length_app, IHl. unfold term. simpl. split.
    + destruct v as [|s]; simpl; [lia|].
      destruct (s =? ""); simpl; lia.
    + intros x [<-|Hx].
      * apply in_or_app. left.
        destruct (present_value v); simpl; now left.
      * apply in_or_app. right. now apply IHi.
Qed.

Lemma no_space_snoc (s : string) (c : ascii) :
  no_space s = true -> is_space c = false ->
  no_space (s ++ String c EmptyString) = true.
Proof.
  intros Hs Hc. induction s as [|d s IH]; simpl in *.
  - now rewrite Hc.
  - apply andb_true_iff in Hs. destruct Hs as [Hd Hs].
    rewrite Hd. simpl. now apply IH.
Qed.

(** The words of [split]: none is empty, none holds whitespace. *)
Lemma split_from_words (s : string) :
  forall cur, no_space cur = true -> forallb word (split_from cur s) = true.
Proof.
  induction s as [|c s IH]; intros cur Hcur; simpl.
  - destruct (cur =? "") eqn:E; simpl; [reflexivity|].
    unfold word. now rewrite E, Hcur.
  - destruct (is_space c) eqn:Hc.
    + destruct (cur =? "") eqn:E.
      * now apply IH.
      * simpl. unfold word at 1. rewrite E, Hcur. simpl. now apply IH.
    + apply IH. now apply no_space_snoc.
Qed.

Lemma split_words (s : string) : forallb word (split s) = true.
Proof. unfold split. now apply split_from_words. Qed.

(** X9: fetch is only ever called with a word of the search answer: an
    id that is not empty and holds no whitespace. *)
Theorem X9_fetched_ids_are_words (lib : email_lib) (srv : imap_server)
  (a : args) :
  forallb word (fetched (fst (run_module lib srv a))) = true.
Proof.
  destruct (run_trace_shape lib srv a) as (n & pre & post & Ht & _ & Hids).
  rewrite Ht, fetched_app, fetched_firstn_opening, fetched_fetch_events.
  simpl.
  assert (Hw : forallb word (answered_ids srv a) = true).
  { unfold answered_ids.
    destruct (srv_search srv _) as [exn|[status [s|]]]; try reflexivity.
    apply split_words. }
  rewrite Hids, forallb_app in Hw. apply andb_true_iff in Hw. tauto.
Qed.

(** X10: a multipart message that has its To, From and Subject fields
    is decoded to a record: each field is the text of the first chunk that
    [decode_header] gives for it (later chunks are dropped), and the body
    is the decoded payload of the first part (later parts are dropped). *)
Theorem X10_decode_multipart (lib : email_lib)
  (hs : list (string * string)) (p : message) (ps : list message)
  (t f s t' f' s' : string) (ct cf cs : option string)
  (rt rf rs : list (string * option string)) :
  get "to" hs = Some t ->
  get "from" hs = Some f ->
  get "subject" hs = Some s ->
  decode_header_str lib t = (t', ct) :: rt ->
  decode_header_str lib f = (f', cf) :: rf ->
  decode_header_str lib s = (s', cs) :: rs ->
  decode_mail lib (Multipart hs (p :: ps)) =
  Returns {| mail_to := t'; mail_from := f'; mail_subject := s';
             mail_body := get_payload_decoded lib p |}.
Proof.
  intros Ht Hf Hs Dt Df Ds.
  unfold decode_mail, header_field, getitem, decode_header. simpl headers_of.
  rewrite Ht, Hf, Hs, Dt, Df, Ds. reflexivity.
Qed.

Lemma X10_decode_multipart_witness :
  decode_mail lib3
    (Multipart [("To", "ann@example.com"); ("FROM", "bob@example.com");
                ("subject", "Invoice 1")]
               [part "first"; part "<p>alternative</p>"]) =
  Returns {| mail_to := "ann@example.com"; mail_from := "bob@example.com";
             mail_subject := "Invoice 1";
             mail_body := get_payload_decoded lib3 (part "first") |}.
Proof.
  apply (X10_decode_multipart lib3 _ _ _
           "ann@example.com" "bob@example.com" "Invoice 1"
           "ann@example.com" "bob@example.com" "Invoice 1"
           None None None [] [] []); reflexivity.
Defined.

(** X11: an exception raised by the select, by the search or by a fetch is
    caught by nothing: when the last call of the run is one of these and
    it raised, the run ends in that exception, with no result. *)
Theorem X11_unguarded_calls (lib : email_lib) (srv : imap_server) (a : args)
  (exn : string) :
  unguarded_raise (fst (run_module lib srv a)) = Some exn ->
  snd (run_module lib srv a) = Uncaught exn.
Proof.
  pose proof (run_module_stages lib srv a) as Hst. cbv zeta in Hst.
  rewrite Hst. clear Hst. unfold opening.
  destruct (a_check_mode a); [discriminate|].
  destruct (srv_connect srv _ _ _) as [e|[]]; [discriminate|].
  destruct (srv_login srv _ _) as [e|[]]; [discriminate|].
  destruct (srv_select srv _) as [e|st].
  { cbn. intros H. now inversion H. }
  destruct (srv_search srv _) as [e|[status search0]].
  { cbn. intros H. now inversion H. }
  destruct (not_ok status); [discriminate|].
  destruct search0 as [s|]; [|discriminate].
  match goal with
  | |- context [build_mails lib srv ?i ?r ?t] =>
      destruct (build_mails lib srv i r t) as [t' x] eqn:Hb
  end.
  apply build_mails_shape in Hb.
  destruct Hb as (pre & ms & post & Hids & Hd & Hx).
  destruct x as [res'|o].
  - destruct Hx as (_ & -> & _). cbn [fst snd].
    destruct Hd as [|i m pre ms Hi Hd]; [discriminate|].
    intros H. exfalso. revert H.
    assert (Hlast : exists pre0 j m0, i :: pre = pre0 ++ [j] /\
                                     delivers lib srv j m0).
    { clear -Hi Hd. revert i m Hi.
      induction Hd as [|i' m' pre ms Hi' Hd IH]; intros i m Hi.
      - exists [], i, m. now split.
      - destruct (IH i' m' Hi') as (pre0 & j & m0 & E & Hj).
        exists (i :: pre0), j, m0. split; [|exact Hj]. simpl. now rewrite E. }
    destruct Hlast as (pre0 & j & m0 & E & Hj). rewrite E.
    rewrite map_app, app_assoc. unfold unguarded_raise. simpl map.
    rewrite rev_unit. unfold fetch_event.
    unfold delivers, pass in Hj.
    destruct (srv_fetch srv j) as [e|[st' c]]; [discriminate|discriminate].
  - destruct Hx as (bad & post' & _ & _ & -> & ->). cbn [fst snd].
    rewrite map_app, app_assoc. unfold unguarded_raise. simpl map.
    rewrite rev_unit. unfold fetch_event, pass.
    destruct (srv_fetch srv bad) as [e|[st' c]].
    + intros H. now inversion H.
    + discriminate.
Qed.

Lemma X11_unguarded_calls_witness :
  snd (run_module lib3 srv_fetch_raises task0) = Uncaught "socket error: EOF".
Proof.
  apply (X11_unguarded_calls lib3 srv_fetch_raises task0). reflexivity.
Defined.

(* ===================================================================== *)
(** ** Beyond the claims: the notification variant *)
(* ===================================================================== *)

Module NotificationFacts.

Import Notification.

Lemma printed_app (t u : list event) : printed (t ++ u) = printed t ++ printed u.
Proof.
  induction t as [|e t IH]; simpl; [reflexivity|].
  destruct e; simpl; now rewrite IH.
Qed.

Lemma session_calls_app (t u : list event) :
  session_calls (t ++ u) = session_calls t ++ session_calls u.
Proof.
  induction t as [|e t IH]; simpl; [reflexivity|].
  destruct e; simpl; now rewrite IH.
Qed.

Section Facts.

Variable lib : email_lib.
Variable srv : server.

(** One pass of the loop on an id that shows a message. *)
Lemma print_mails_cons_shows (email_id : string) (rest : list string)
  (msg : message) (res : result) (t : list event) :
  shows lib srv email_id msg ->
  print_mails lib srv (email_id :: rest) res t =
  print_mails lib srv rest res
    (t ++ Session (EvFetch email_id (srv_fetch (imap srv) email_id))
          :: map Print (lines_of msg)).
Proof.
  intros (Hpy & envelope & raw & Hf & Hm).
  simpl. unfold bind, call, print, parse_body. rewrite Hf, Hpy. simpl.
  rewrite Hm. unfold lines_of. simpl.
  repeat rewrite <- app_assoc. reflexivity.
Qed.

(** While every id shows a message, the loop fetches each id and prints
    the two lines of its message. *)
Lemma print_mails_shows (ids : list string) (msgs : list message) :
  Forall2 (shows lib srv) ids msgs ->
  forall res t,
    exists u,
      print_mails lib srv ids res t = (t ++ u, inl tt) /\
      printed u = flat_map lines_of msgs /\
      session_calls u =
        map (fun i => EvFetch i (srv_fetch (imap srv) i)) ids.
Proof.
  induction 1 as [|i m ids msgs Hs _ IH]; intros res t.
  - exists []. simpl. unfold ret. now rewrite app_nil_r.
  - rewrite (print_mails_cons_shows i ids m res t Hs).
    destruct (IH res (t ++ Session (EvFetch i (srv_fetch (imap srv) i))
                        :: map Print (lines_of m))) as (u & Hu & Hp & Hc).
    exists ((Session (EvFetch i (srv_fetch (imap srv) i))
             :: map Print (lines_of m)) ++ u).
    split; [rewrite Hu; now rewrite <- app_assoc|].
    rewrite printed_app, session_calls_app, Hp, Hc. split; reflexivity.
Qed.

(** What the loop never does: it calls nothing but fetch, and a result it
    hands over is the one it was given. *)
Lemma print_mails_inv (ids : list string) :
  forall res t t' x,
    print_mails lib srv ids res t = (t', x) ->
    (exists u,
        t' = t ++ u /\
        Forall (fun e => match e with
                         | EvFetch _ _ => True
                         | _ => False
                         end) (session_calls u)) /\
    match x with
    | inl _ => True
    | inr o => forall r, result_of o = Some r -> r = res
    end.
Proof.
  induction ids as [|i ids IH]; intros res t t' x H.
  - simpl in H. unfold ret in H. inversion H; subst. split; [|exact I].
    exists []. split; [now rewrite app_nil_r | constructor].
  - simpl in H. unfold bind, call, print in H.
    destruct (srv_fetch (imap srv) i) as [exn|[status body0]] eqn:Hf;
      simpl in H.
    { inversion H; subst. split; [|discriminate].
      eexists. split; [reflexivity|]. simpl. repeat constructor. }
    destruct (not_ok status); simpl in H.
    { inversion H; subst. split.
      - eexists. split; [reflexivity|]. simpl. repeat constructor.
      - simpl. intros r Hr. now inversion Hr. }
    destruct (parse_body lib body0) as [exn|msg]; simpl in H.
    { inversion H; subst. split; [|discriminate].
      eexists. split; [reflexivity|]. simpl. repeat constructor. }
    apply IH in H. destruct H as [(u & -> & Hu) Hx]. split; [|exact Hx].
    eexists. split; [repeat rewrite <- app_assoc; reflexivity|].
    simpl. constructor; [exact I | exact Hu].
Qed.

(** The run, stage by stage. *)
Lemma notification_stages (a : args) :
  let p := module_params a in
  run_module lib srv a =
  if a_check_mode a then ([], ExitJson seed_result) else
  match srv_connect (imap srv) (ssl p) (host p) (effective_port p) with
  | Raises exn => (firstn 1 (opening srv a), FailJson exn seed_result)
  | Returns _ =>
  match srv_login (imap srv) (username p) (password p) with
  | Raises exn => (firstn 2 (opening srv a), FailJson exn seed_result)
  | Returns _ =>
  match srv_list srv with
  | Raises exn => (firstn 3 (opening srv a), Uncaught exn)
  | Returns _ =>
  match srv_select (imap srv) "inbox" with
  | Raises exn => (firstn 4 (opening srv a), Uncaught exn)
  | Returns _ =>
  match srv_search (imap srv) ["SUBJECT"; quoted_alerta] with
  | Raises exn => (opening srv a, Uncaught exn)
  | Returns (status, search0) =>
      if not_ok status then (opening srv a, FailJson "Error" seed_result)
      else
        match search0 with
        | None =>
            (opening srv a,
             Uncaught "AttributeError: 'NoneType' object has no attribute 'split'")
        | Some s =>
            match print_mails lib srv (split s) seed_result (opening srv a) with
            | (t, inl _) => (t, ExitJson seed_result)
            | (t, inr o) => (t, o)
            end
        end
  end end end end end.
Proof.
  intros p.
  unfold run_module, run_module_N, opening, bind, call, exit_json.
  fold p. fold (effective_port p).
  destruct (a_check_mode a); simpl; [reflexivity|].
  destruct (srv_connect (imap srv) _ _ _) as [exn|[]]; simpl; [reflexivity|].
  destruct (srv_login (imap srv) _ _) as [exn|[]]; simpl; [reflexivity|].
  destruct (srv_list srv) as [exn|st0]; simpl; [reflexivity|].
  destruct (srv_select (imap srv) _) as [exn|st]; simpl; [reflexivity|].
  destruct (srv_search (imap srv) _) as [exn|[status search0]]; simpl;
    [reflexivity|].
  destruct (not_ok status); simpl; [reflexivity|].
  destruct search0 as [s|]; simpl; [|reflexivity].
  destruct (print_mails lib srv (split s) _ _) as [t [u|o]]; reflexivity.
Qed.

End Facts.

End NotificationFacts.

(** X12: the notification module never fills its result in: whatever the
    task and the server, the result that reaches the caller, in a success
    or in a failure, is the one the module starts from, with [changed]
    false and five empty strings. *)
Theorem X12_notification_result_is_seed (lib : email_lib)
  (srv : Notification.server) (a : Notification.args)
  (r : Notification.result) :
  Notification.result_of (snd (Notification.run_module lib srv a)) = Some r ->
  r = Notification.seed_result.
Proof.
  pose proof (NotificationFacts.notification_stages lib srv a) as Hst.
  cbv zeta in Hst. rewrite Hst. clear Hst.
  destruct (Notification.a_check_mode a).
  { simpl. intros H. now inversion H. }
  destruct (srv_connect _ _ _ _) as [exn|[]].
  { simpl. intros H. now inversion H. }
  destruct (srv_login _ _ _) as [exn|[]].
  { simpl. intros H. now inversion H. }
  destruct (Notification.srv_list srv) as [exn|st0]; [discriminate|].
  destruct (srv_select _ _) as [exn|st]; [discriminate|].
  destruct (srv_search _ _) as [exn|[status search0]]; [discriminate|].
  destruct (not_ok status).
  { simpl. intros H. now inversion H. }
  destruct search0 as [s|]; [|discriminate].
  destruct (Notification.print_mails lib srv (split s) _ _) as [t' x] eqn:Hb.
  apply NotificationFacts.print_mails_inv in Hb. destruct Hb as [_ Hx].
  destruct x as [u|o]; simpl.
  - intros H. now inversion H.
  - apply Hx.
Qed.

Lemma X12_notification_result_is_seed_witness :
  Notification.seed_result = Notification.seed_result.
Proof.
  exact (X12_notification_result_is_seed lib3 nsrv_third_fails ntask
           Notification.seed_result eq_refl).
Defined.

(** X13: when the search is answered OK and every id of the answer is
    fetched with status OK (under Python 3), the notification module ends
    in a success and has printed, for each id in the order of the answer,
    the To field and then the From field of its message, the text None
    standing for a field that the message does not have; its session calls
    are the opening ones and one fetch per id. *)
Theorem X13_notification_prints (lib : email_lib)
  (srv : Notification.server) (a : Notification.args) (s : string)
  (msgs : list message) :
  Notification.searched_ok srv a s ->
  Forall2 (Notification.shows lib srv) (split s) msgs ->
  snd (Notification.run_module lib srv a) =
    Notification.ExitJson Notification.seed_result /\
  Notification.printed (fst (Notification.run_module lib srv a)) =
    flat_map Notification.lines_of msgs /\
  Notification.session_calls (fst (Notification.run_module lib srv a)) =
    Notification.session_calls (Notification.opening srv a) ++
    map (fun i => EvFetch i (srv_fetch (Notification.imap srv) i)) (split s).
Proof.
  intros (Hc & Hconn & Hlog & [st0 Hlist] & [st Hsel] & Hs) Hshow.
  pose proof (NotificationFacts.notification_stages lib srv a) as Hst.
  cbv zeta in Hst. rewrite Hst. clear Hst.
  rewrite Hc, Hconn, Hlog, Hlist, Hsel, Hs.
  change (not_ok "OK") with false. cbv iota.
  destruct (NotificationFacts.print_mails_shows lib srv _ _ Hshow
              Notification.seed_result (Notification.opening srv a))
    as (u & Hu & Hp & Hcalls).
  rewrite Hu. cbn [fst snd].
  rewrite NotificationFacts.printed_app, NotificationFacts.session_calls_app.
  rewrite Hp, Hcalls. repeat split.
Qed.

Lemma X13_notification_prints_witness :
  snd (Notification.run_module lib3 nsrv_two ntask) =
    Notification.ExitJson Notification.seed_result /\
  Notification.printed (fst (Notification.run_module lib3 nsrv_two ntask)) =
    flat_map Notification.lines_of [msg1; Single [] "nofrom"] /\
  Notification.session_calls (fst (Notification.run_module lib3 nsrv_two ntask)) =
    Notification.session_calls (Notification.opening nsrv_two ntask) ++
    map (fun i => EvFetch i (srv_fetch (Notification.imap nsrv_two) i))
        (split "1 2").
Proof.
  apply (X13_notification_prints lib3 nsrv_two ntask "1 2"
           [msg1; Single [] "nofrom"]).
  - repeat split; now exists "OK".
  - repeat constructor; repeat eexists.
Defined.

(** The lines printed in the run of the witness. *)
Example notification_prints_none :
  Notification.printed (fst (Notification.run_module lib3 nsrv_two ntask)) =
  ["ann@example.com"; "bob@example.com"; "None"; "None"].
Proof. reflexivity. Qed.

(** X14: out of check mode the first thing the notification module does
    is the connection, to the host of the task and to the port of the task
    as it is given, negative or not; only a task that gives no port gets
    993 (with SSL) or 143 (without). *)
Theorem X14_notification_port (lib : email_lib)
  (srv : Notification.server) (a : Notification.args) :
  Notification.a_check_mode a = false ->
  exists pt r rest,
    fst (Notification.run_module lib srv a) =
      Notification.Session
        (EvConnect (default true (Notification.a_ssl a))
                   (Notification.a_host a) pt r) :: rest /\
    pt = match Notification.a_port a with
         | Some n => n
         | None => if default true (Notification.a_ssl a) then 993%Z else 143%Z
         end.
Proof.
  intros Hc.
  pose proof (NotificationFacts.notification_stages lib srv a) as Hst.
  cbv zeta in Hst. rewrite Hst, Hc. clear Hst.
  assert (Hpt : Notification.effective_port (Notification.module_params a) =
                match Notification.a_port a with
                | Some n => n
                | None => if default true (Notification.a_ssl a)
                          then 993%Z else 143%Z
                end).
  { unfold Notification.effective_port. simpl.
    destruct (default true (Notification.a_ssl a));
      destruct (Notification.a_port a); reflexivity. }
  exists (Notification.effective_port (Notification.module_params a)).
  unfold Notification.opening.
  destruct (srv_connect _ _ _ _) as [exn|[]].
  { do 2 eexists. split; [reflexivity | exact Hpt]. }
  destruct (srv_login _ _ _) as [exn|[]].
  { do 2 eexists. split; [reflexivity | exact Hpt]. }
  destruct (Notification.srv_list srv) as [exn|st0].
  { do 2 eexists. split; [reflexivity | exact Hpt]. }
  destruct (srv_select _ _) as [exn|st].
  { do 2 eexists. split; [reflexivity | exact Hpt]. }
  destruct (srv_search _ _) as [exn|[status search0]].
  { do 2 eexists. split; [reflexivity | exact Hpt]. }
  destruct (not_ok status).
  { do 2 eexists. split; [reflexivity | exact Hpt]. }
  destruct search0 as [s|].
  2:{ do 2 eexists. split; [reflexivity | exact Hpt]. }
  match goal with
  | |- context [Notification.print_mails lib srv ?i ?r ?t] =>
      destruct (Notification.print_mails lib srv i r t) as [t' x] eqn:Hb
  end.
  apply NotificationFacts.print_mails_inv in Hb.
  destruct Hb as [(u & -> & _) _].
  destruct x as [v|o]; do 2 eexists; (split; [reflexivity | exact Hpt]).
Qed.

Lemma X14_notification_port_witness :
  exists pt r rest,
    fst (Notification.run_module lib3 nsrv_two ntask) =
      Notification.Session (EvConnect true "mail.example.com" pt r) :: rest /\
    pt = (-1)%Z.
Proof.
  exact (X14_notification_port lib3 nsrv_two ntask eq_refl).
Defined.

(** X15: the mailbox and the search of the notification module do not
    depend on the task: every select of a run is for the mailbox inbox and
    every search is for SUBJECT followed by Alerta in double quotes. *)
Theorem X15_notification_fixed_search (lib : email_lib)
  (srv : Notification.server) (a : Notification.args) :
  Forall (fun e => match e with
                   | EvSelect m _ => m = "inbox"
                   | EvSearch tokens _ =>
                       tokens = ["SUBJECT"; Notification.quoted_alerta]
                   | _ => True
                   end)
         (Notification.session_calls (fst (Notification.run_module lib srv a))).
Proof.
  pose proof (NotificationFacts.notification_stages lib srv a) as Hst.
  cbv zeta in Hst. rewrite Hst. clear Hst.
  unfold Notification.opening.
  destruct (Notification.a_check_mode a); [constructor|].
  destruct (srv_connect _ _ _ _) as [exn|[]]; [repeat constructor|].
  destruct (srv_login _ _ _) as [exn|[]]; [repeat constructor|].
  destruct (Notification.srv_list srv) as [exn|st0]; [repeat constructor|].
  destruct (srv_select _ _) as [exn|st]; [repeat constructor|].
  destruct (srv_search _ _) as [exn|[status search0]]; [repeat constructor|].
  destruct (not_ok status); [repeat constructor|].
  destruct search0 as [s|]; [|repeat constructor].
  match goal with
  | |- context [Notification.print_mails lib srv ?i ?r ?t] =>
      destruct (Notification.print_mails lib srv i r t) as [t' x] eqn:Hb
  end.
  apply NotificationFacts.print_mails_inv in Hb.
  destruct Hb as [(u & -> & Hu) _].
  assert (H : Forall (fun e => match e with
                   | EvSelect m _ => m = "inbox"
                   | EvSearch tokens _ =>
                       tokens = ["SUBJECT"; Notification.quoted_alerta]
                   | _ => True
                   end) (Notification.session_calls u)).
  { eapply Forall_impl; [|exact Hu]. intros e He. destruct e; tauto. }
  destruct x as [v|o]; cbn [fst]; rewrite NotificationFacts.session_calls_app;
    (apply Forall_app; split; [repeat constructor | exact H]).
Qed.

(** X16: the calls of a run carry the arguments of the task unchanged:
    every login is made with the username and the password of the task,
    every select is for its mailbox (INBOX when it names none), and every
    search is called with the search array of its filter (of the default
    filter when it gives none). *)
Theorem X16_calls_carry_the_arguments (lib : email_lib) (srv : imap_server)
  (a : args) :
  Forall (fun e => match e with
                   | EvLogin u pw _ => u = a_username a /\ pw = a_password a
                   | EvSelect m _ => m = default "INBOX" (a_mailbox a)
                   | EvSearch tokens _ =>
                       tokens =
                       make_search_array (default default_filter (a_filter a))
                   | _ => True
                   end)
         (fst (run_module lib srv a)).
Proof.
  destruct (run_trace_shape lib srv a) as (n & pre & post & -> & _ & _).
  apply Forall_app. split.
  - unfold opening.
    destruct n as [|[|[|[|n]]]]; simpl; repeat constructor.
    rewrite firstn_nil. constructor.
  - clear. induction pre as [|i pre IH]; simpl; constructor; [exact I | exact IH].
Qed.
